(** * AudioSwitcher: the tray utility's core, embedded from [audio_switcher.py]

    The Python module is glue around three external services: the JSON
    library and the file system (preferences), pycaw's endpoint enumeration,
    and the COM policy-configuration interface that sets the default render
    endpoint.  The embedding keeps the module's own control flow (the
    [try]/[except] blocks, the loops with [continue], the truthiness tests)
    and threads an explicit machine state made of the [AudioSwitcher] object
    and of the part of the operating system the module talks to. *)

From stdpp Require Import base option list gmap strings pretty.
From Stdlib Require Import ZArith Ascii String.

#[local] Open Scope string_scope.
#[local] Set Warnings "-register-all".

(** ** Python values

    The values that [json.load] can hand to the program and that the program
    stores in [self._config].  JSON numbers are kept to the integers; a [dict]
    with string keys is a finite map, whose equality is Python's [==] on
    dicts (insertion order is not observable through [==]). *)

Inductive value : Type :=
  | VNone
  | VBool (b : bool)
  | VInt (z : Z)
  | VStr (s : string)
  | VList (l : list value)
  | VDict (d : gmap string value).

(** [bool(v)], as used by [not fav1], [dev.id and ...], [name or ...]. *)
Definition truthy (v : value) : bool :=
  match v with
  | VNone => false
  | VBool b => b
  | VInt z => negb (Z.eqb z 0)
  | VStr s => negb (String.eqb s "")
  | VList l => match l with [] => false | _ :: _ => true end
  | VDict d => negb (bool_decide (d = ∅))
  end.

(** Truthiness of an attribute that is a [str] or [None]. *)
Definition truthy_str (o : option string) : bool :=
  match o with
  | None => false
  | Some s => negb (String.eqb s "")
  end.

(** [o or d] for an attribute that is a [str] or [None]. *)
Definition str_or (o : option string) (d : string) : string :=
  if truthy_str o then default d o else d.

(** [current == fav] where [current] is what [get_default_device_id] returns
    ([None] or a [str]) and [fav] is any stored value. *)
Definition py_eq_id (current : option string) (fav : value) : bool :=
  match current, fav with
  | None, VNone => true
  | Some c, VStr s => String.eqb c s
  | _, _ => false
  end.

(** ** Strings: [str.lower] and the substring test [in] *)

Definition lower_ascii (c : ascii) : ascii :=
  let n := nat_of_ascii c in
  if (65 <=? n)%nat && (n <=? 90)%nat then ascii_of_nat (n + 32) else c.

(** [s.lower()].  A Python [str] is taken as its sequence of characters of
    type [ascii]; lowering acts on the letters [A]-[Z], which is all the
    blacklist patterns need, and leaves the other characters alone. *)
Fixpoint lower (s : string) : string :=
  match s with
  | EmptyString => EmptyString
  | String c t => String (lower_ascii c) (lower t)
  end.

(** [needle in hay] on strings. *)
Fixpoint contains (needle hay : string) : bool :=
  String.prefix needle hay ||
  match hay with
  | EmptyString => false
  | String _ t => contains needle t
  end.

(** ** Exceptions and the machine monad *)

Inductive exn : Type :=
  | OSError
  | JSONDecodeError
  | COMError
  | ArgumentError
  | AttributeError
  | TypeError.

Inductive result (A : Type) : Type :=
  | Ok (a : A)
  | Raise (e : exn).
Arguments Ok {A} a.
Arguments Raise {A} e.

(** *** Operating-system side *)

(** [CONFIG_FILE] on disk: absent, present but not openable (permissions,
    a directory, a lock), or a regular file with its text. *)
Inductive file : Type :=
  | Missing
  | Denied
  | Content (s : string).

(** pycaw's [AudioDeviceState] and [EDataFlow] enumerations. *)
Inductive AudioDeviceState : Type := Active | Disabled | NotPresent | Unplugged.

Definition state_name (s : AudioDeviceState) : string :=
  match s with
  | Active => "Active"
  | Disabled => "Disabled"
  | NotPresent => "NotPresent"
  | Unplugged => "Unplugged"
  end.

Inductive EDataFlow : Type := eRender | eCapture | eAll.

Definition flow_value (f : EDataFlow) : Z :=
  match f with
  | eRender => 0
  | eCapture => 1
  | eAll => 2
  end.

(** A device object as returned by [AudioUtilities.GetAllDevices()].  [flow]
    is [None] when the object has no [flow] attribute or the attribute is
    [None]; [dev_id] and [FriendlyName] may be [None]. *)
Record AudioDevice : Type := mkAudioDevice {
  dev_id : option string;
  state : AudioDeviceState;
  flow : option EDataFlow;
  FriendlyName : option string
}.

(** The part of the system outside the process.
    - [config_file]: the preferences file;
    - [fs_writable]: whether [open(CONFIG_FILE, 'w')] is allowed;
    - [disk_quota]: [Some k] when only [k] more characters can be written
      before the write raises;
    - [all_devices]: the outcome of [AudioUtilities.GetAllDevices()];
    - [render_default]: per role, the default render endpoint id, [None]
      when the query raises;
    - [policy_available]: whether [CoCreateInstance] of the policy
      configuration class succeeds;
    - [endpoint_accepts]: whether [SetDefaultEndpoint(id, role)] succeeds;
    - [endpoint_calls]: every [SetDefaultEndpoint] call made so far. *)
Record world : Type := mkWorld {
  config_file : file;
  fs_writable : bool;
  disk_quota : option nat;
  all_devices : result (list AudioDevice);
  render_default : nat → option string;
  policy_available : bool;
  endpoint_accepts : string → nat → bool;
  endpoint_calls : list (value * nat)
}.

Definition write_file (f : file) (w : world) : world :=
  mkWorld f (fs_writable w) (disk_quota w) (all_devices w) (render_default w)
    (policy_available w) (endpoint_accepts w) (endpoint_calls w).

Definition record_call (c : value * nat) (w : world) : world :=
  mkWorld (config_file w) (fs_writable w) (disk_quota w) (all_devices w)
    (render_default w) (policy_available w) (endpoint_accepts w)
    (endpoint_calls w ++ [c])%list.

Definition set_render_default (role : nat) (s : string) (w : world) : world :=
  mkWorld (config_file w) (fs_writable w) (disk_quota w) (all_devices w)
    (fun r => if Nat.eqb r role then Some s else render_default w r)
    (policy_available w) (endpoint_accepts w) (endpoint_calls w).

(** *** Process side *)

(** The COM interface pointer held by a [PolicyConfigClient]. *)
Inductive IPolicyConfig : Type := ComPointer.

Record PolicyConfigClient : Type := mkPolicyConfigClient {
  _policy_config : option IPolicyConfig
}.

(** An element of [self._devices]: the dict [{'id': ..., 'name': ...}]. *)
Record device : Type := mkDevice {
  id : string;
  name : string
}.

(** The fields of [AudioSwitcher] that the core logic reads and writes
    ([icon] and [_running] belong to the tray loop). *)
Record AudioSwitcher : Type := mkAudioSwitcher {
  policy_client : option PolicyConfigClient;
  _devices : list device;
  _config : value
}.

Record machine : Type := mkMachine {
  self : AudioSwitcher;
  os : world
}.

Definition M (A : Type) : Type := machine → result A * machine.

Definition ret {A} (a : A) : M A := fun m => (Ok a, m).

Definition raise {A} (e : exn) : M A := fun m => (Raise e, m).

Definition bind {A B} (c : M A) (k : A → M B) : M B :=
  fun m =>
    match c m with
    | (Ok a, m') => k a m'
    | (Raise e, m') => (Raise e, m')
    end.

(** [try: body  except Exception: handler].  What the body did to the state
    before raising stays done. *)
Definition try_except {A} (body : M A) (handler : M A) : M A :=
  fun m =>
    match body m with
    | (Ok a, m') => (Ok a, m')
    | (Raise _, m') => handler m'
    end.

Declare Scope py_scope.
Delimit Scope py_scope with py.
Notation "x <- c ;; k" := (bind c (fun x => k))
  (at level 100, c at next level, right associativity) : py_scope.
Notation "c ;;; k" := (bind c (fun _ => k))
  (at level 100, right associativity) : py_scope.
#[local] Open Scope py_scope.

Definition get_self : M AudioSwitcher := fun m => (Ok (self m), m).
Definition get_os : M world := fun m => (Ok (os m), m).
Definition put_self (s : AudioSwitcher) : M unit :=
  fun m => (Ok tt, mkMachine s (os m)).
Definition put_os (w : world) : M unit :=
  fun m => (Ok tt, mkMachine (self m) w).

(** [for x in xs: body(x)] *)
Fixpoint for_each {A} (xs : list A) (body : A → M unit) : M unit :=
  match xs with
  | [] => ret tt
  | x :: rest => body x ;;; for_each rest body
  end.

(** ** The JSON library

    [json.dump] and [json.load] are the standard library's; the program only
    relies on their interface.  [json_dumps v] is the text that
    [json.dump(v, f, indent=2, ensure_ascii=False)] writes, [json_loads s] is
    [Some v] when [json.load] returns [v] on a file holding [s] and [None]
    when it raises. *)
Class JsonLib : Type := mkJsonLib {
  json_dumps : value → string;
  json_loads : string → option value
}.

(** ** Preference store: [load_config] and [save_config] *)

Section store.
Context `{JsonLib}.

(** [os.path.exists(CONFIG_FILE)] *)
Definition path_exists : M bool :=
  w <- get_os ;;
  ret (match config_file w with Missing => false | _ => true end).

(** [open(CONFIG_FILE, 'r', encoding='utf-8')] followed by reading it. *)
Definition open_read : M string :=
  w <- get_os ;;
  match config_file w with
  | Content s => ret s
  | Missing | Denied => raise OSError
  end.

(** [json.load(f)] *)
Definition json_load (s : string) : M value :=
  match json_loads s with
  | Some v => ret v
  | None => raise JSONDecodeError
  end.

Definition default_config : value :=
  VDict (<["favorite1" := VNone]> (<["favorite2" := VNone]> ∅)).

(** The [try] block of [load_config]: [Some v] when it returns [v], [None]
    when control falls out of the [if]. *)
Definition load_config_try : M (option value) :=
  e <- path_exists ;;
  if e then
    s <- open_read ;;
    v <- json_load s ;;
    ret (Some v)
  else ret None.

Definition load_config : M value :=
  r <- try_except load_config_try (ret None) ;;
  match r with
  | Some v => ret v
  | None => ret default_config
  end.

Definition set_config_file (f : file) : M unit :=
  w <- get_os ;;
  put_os (write_file f w).

(** [open(CONFIG_FILE, 'w', encoding='utf-8')]: truncates the file. *)
Definition open_write : M unit :=
  w <- get_os ;;
  match config_file w with
  | Denied => raise OSError
  | Missing | Content _ =>
      if fs_writable w then set_config_file (Content "") else raise OSError
  end.

(** Writing [s] to the freshly truncated file; when the disk gives out
    after [k] characters the file keeps those and the write raises. *)
Definition write_text (s : string) : M unit :=
  w <- get_os ;;
  match disk_quota w with
  | Some k =>
      if (k <? String.length s)%nat
      then set_config_file (Content (substring 0 k s)) ;;; raise OSError
      else set_config_file (Content s)
  | None => set_config_file (Content s)
  end.

(** The [try] block of [save_config]. *)
Definition save_config_try (config : value) : M unit :=
  open_write ;;;
  write_text (json_dumps config).

Definition save_config (config : value) : M unit :=
  try_except (save_config_try config) (ret tt).
End store.

(** ** [PolicyConfigClient] *)

(** [comtypes.CoCreateInstance(CLSID_PolicyConfigClient, IPolicyConfig, CLSCTX_ALL)] *)
Definition CoCreateInstance_PolicyConfig : M IPolicyConfig :=
  w <- get_os ;;
  if policy_available w then ret ComPointer else raise COMError.

(** [_init_policy_config]: the value left in [self._policy_config]. *)
Definition _init_policy_config : M (option IPolicyConfig) :=
  try_except (p <- CoCreateInstance_PolicyConfig ;; ret (Some p)) (ret None).

(** [PolicyConfigClient()] *)
Definition PolicyConfigClient_init : M PolicyConfigClient :=
  p <- _init_policy_config ;;
  ret (mkPolicyConfigClient p).

(** [self._policy_config.SetDefaultEndpoint(device_id, role)].  The call is
    recorded; a device id that is not a string cannot be marshalled, a
    string the system refuses gives a COM error, and an accepted one becomes
    the default render endpoint of the role. *)
Definition SetDefaultEndpoint (p : IPolicyConfig) (device_id : value) (role : nat)
    : M unit :=
  w <- get_os ;;
  let w' := record_call (device_id, role) w in
  match device_id with
  | VStr s =>
      if endpoint_accepts w s role
      then put_os (set_render_default role s w')
      else put_os w' ;;; raise COMError
  | _ => put_os w' ;;; raise ArgumentError
  end.

(** [range(3)]: the roles console, multimedia, communications. *)
Definition roles : list nat := seq 0 3.

Definition set_default_endpoint (c : PolicyConfigClient) (device_id : value)
    : M unit :=
  match _policy_config c with
  | Some p =>
      for_each roles (fun role =>
        try_except (SetDefaultEndpoint p device_id role) (ret tt))
  | None => ret tt
  end.

(** ** [AudioSwitcher] *)

Definition set_devices (ds : list device) : M unit :=
  s <- get_self ;;
  put_self (mkAudioSwitcher (policy_client s) ds (_config s)).

Definition set_policy_client (c : PolicyConfigClient) : M unit :=
  s <- get_self ;;
  put_self (mkAudioSwitcher (Some c) (_devices s) (_config s)).

Definition set_config (cfg : value) : M unit :=
  s <- get_self ;;
  put_self (mkAudioSwitcher (policy_client s) (_devices s) cfg).

(** [AudioUtilities.GetAllDevices()] *)
Definition GetAllDevices : M (list AudioDevice) :=
  w <- get_os ;;
  match all_devices w with
  | Ok ds => ret ds
  | Raise e => raise e
  end.

Definition skip_patterns : list string :=
  ["Microphone"; "Mic"; "Input"; "Line In"; "Rear Green In";
   "Rear Blue In"; "Front Green In"; "Front Pink In";
   "Rear Pink In"].

(** [any(pattern.lower() in name.lower() for pattern in skip_patterns)] *)
Definition name_skipped (name : string) : bool :=
  existsb (fun pattern => contains (lower pattern) (lower name)) skip_patterns.

(** [hasattr(dev, 'flow') and dev.flow is not None], then
    [dev.flow.value != 0]. *)
Definition flow_skipped (dev : AudioDevice) : bool :=
  match flow dev with
  | Some f => negb (Z.eqb (flow_value f) 0)
  | None => false
  end.

(** One pass through the body of the [for dev in all_devices] loop, as a
    function of the current [self._devices]. *)
Definition refresh_step (devices : list device) (dev : AudioDevice)
    : list device :=
  if String.eqb (state_name (state dev)) "Active" && truthy_str (dev_id dev)
  then
    if flow_skipped dev then devices
    else
      let name := str_or (FriendlyName dev) "" in
      if name_skipped name then devices
      else
        (devices ++
          [mkDevice (default "" (dev_id dev))
             (str_or (Some name)
                ("Device " +:+ pretty (List.length devices + 1)%nat))])%list
  else devices.

Definition _refresh_devices : M unit :=
  set_devices [] ;;;
  try_except
    (all <- GetAllDevices ;;
     for_each all (fun dev =>
       s <- get_self ;;
       set_devices (refresh_step (_devices s) dev)))
    (ret tt).

(** The tests a reported device has to pass to get an entry, gathered from
    the branches of [refresh_step]. *)
Definition listed (dev : AudioDevice) : bool :=
  String.eqb (state_name (state dev)) "Active" && truthy_str (dev_id dev) &&
  negb (flow_skipped dev) &&
  negb (name_skipped (str_or (FriendlyName dev) "")).

(** The machine [m] in which the system reports [r] to [GetAllDevices()]. *)
Definition reporting (r : result (list AudioDevice)) (m : machine) : machine :=
  mkMachine (self m)
    (mkWorld (config_file (os m)) (fs_writable (os m)) (disk_quota (os m)) r
       (render_default (os m)) (policy_available (os m))
       (endpoint_accepts (os m)) (endpoint_calls (os m))).

(** The enumeration result: [self._devices] once [_refresh_devices] is done. *)
Definition enumerated (m : machine) : list device :=
  _devices (self (snd (_refresh_devices m))).

(** A display name is blacklisted when, case-insensitively, it contains one
    of the [skip_patterns]. *)
Definition blacklisted (nm : string) : Prop :=
  ∃ pattern, pattern ∈ skip_patterns ∧ contains (lower pattern) (lower nm) = true.

(** The entry [e] at position [i] of the result stems from the reported
    device [dev]: it carries the device's id, and the device's display name
    when it has one, the synthetic name of position [i] otherwise. *)
Definition stems_from (i : nat) (e : device) (dev : AudioDevice) : Prop :=
  dev_id dev = Some (id e) ∧
  (∀ nm, FriendlyName dev = Some nm → nm ≠ "" → name e = nm) ∧
  (FriendlyName dev = None ∨ FriendlyName dev = Some "" →
     name e = "Device " +:+ pretty (S i)).

(** What holds of the entry [e] at position [i] of a result computed from
    the report [all]: it has an id and a name, and it stems from a reported
    device that passed the tests. *)
Definition origin (all : list AudioDevice) (i : nat) (e : device) : Prop :=
  id e ≠ "" ∧ name e ≠ "" ∧
  ∃ dev, dev ∈ all ∧ listed dev = true ∧ stems_from i e dev.

(** [deviceEnumerator.GetDefaultAudioEndpoint(0, 0).GetId()]: the render
    endpoint of role 0. *)
Definition GetDefaultAudioEndpoint_GetId : M string :=
  w <- get_os ;;
  match render_default w 0 with
  | Some i => ret i
  | None => raise COMError
  end.

Definition get_default_device_id : M (option string) :=
  try_except (i <- GetDefaultAudioEndpoint_GetId ;; ret (Some i)) (ret None).

Definition set_default_device (device_id : value) : M unit :=
  s <- get_self ;;
  match policy_client s with
  | None => c <- PolicyConfigClient_init ;; set_policy_client c
  | Some _ => ret tt
  end ;;;
  s <- get_self ;;
  match policy_client s with
  | Some c => set_default_endpoint c device_id
  | None => raise AttributeError
  end.

(** The interface pointer that [set_default_device] ends up using: the one of
    the client already held, or the outcome of creating a client now. *)
Definition policy_in_use (m : machine) : option IPolicyConfig :=
  match policy_client (self m) with
  | Some c => _policy_config c
  | None => if policy_available (os m) then Some ComPointer else None
  end.

Fixpoint find_name (devices : list device) (device_id : string)
    : option string :=
  match devices with
  | [] => None
  | dev :: rest =>
      if String.eqb (id dev) device_id then Some (name dev)
      else find_name rest device_id
  end.

Definition get_device_name (device_id : string) : M (option string) :=
  s <- get_self ;;
  ret (find_name (_devices s) device_id).

(** [config.get(key)] *)
Definition dict_get (config : value) (key : string) : M value :=
  match config with
  | VDict d => ret (default VNone (d !! key))
  | _ => raise AttributeError
  end.

(** [config[key] = v] *)
Definition dict_setitem (config : value) (key : string) (v : value) : M value :=
  match config with
  | VDict d => ret (VDict (<[key := v]> d))
  | _ => raise TypeError
  end.

Definition toggle_favorites : M unit :=
  s <- get_self ;;
  fav1 <- dict_get (_config s) "favorite1" ;;
  fav2 <- dict_get (_config s) "favorite2" ;;
  if negb (truthy fav1) || negb (truthy fav2) then ret tt
  else
    current <- get_default_device_id ;;
    if py_eq_id current fav1
    then set_default_device fav2
    else set_default_device fav1.

(** A favorite slot of the stored record is unset when its key is absent or
    holds [None]. *)
Definition unset (o : option value) : Prop := o = None ∨ o = Some VNone.

(** [f'favorite{slot}'] *)
Definition favorite_key (slot : Z) : string := "favorite" +:+ pretty slot.

Section switcher.
Context `{JsonLib}.

Definition set_favorite (slot : Z) (device_id : value) : M unit :=
  s <- get_self ;;
  cfg <- dict_setitem (_config s) (favorite_key slot) device_id ;;
  set_config cfg ;;;
  save_config cfg.

(** [AudioSwitcher.__init__] *)
Definition AudioSwitcher_init : M unit :=
  cfg <- load_config ;;
  put_self (mkAudioSwitcher None [] cfg) ;;;
  _refresh_devices.
End switcher.

(** ** A reference JSON library

    An executable instance of [JsonLib]: the printer lays a value out the way
    [json.dump(..., indent=2, ensure_ascii=False)] does (keys in the map's
    own order), the reader is a recursive-descent parser for the same
    grammar, restricted to what [value] can hold (integers for numbers,
    [\u] escapes below 128). *)

Module MiniJson.

Definition dquote : ascii := "034"%char.
Definition backslash : ascii := "092"%char.
Definition newline : ascii := "010"%char.

Definition hex_digit (n : nat) : ascii :=
  if (n <? 10)%nat then ascii_of_nat (48 + n) else ascii_of_nat (87 + n).

(** The escape that the encoder emits for one character. *)
Definition escape_char (c : ascii) : string :=
  let n := nat_of_ascii c in
  if Ascii.eqb c dquote then String backslash (String dquote "")
  else if Ascii.eqb c backslash then String backslash (String backslash "")
  else if Ascii.eqb c newline then String backslash "n"
  else if (n =? 13)%nat then String backslash "r"
  else if (n =? 9)%nat then String backslash "t"
  else if (n =? 8)%nat then String backslash "b"
  else if (n =? 12)%nat then String backslash "f"
  else if (n <? 32)%nat then
    String backslash
      (String "u" (String "0" (String "0"
        (String (hex_digit (n / 16)) (String (hex_digit (n mod 16)) "")))))
  else String c "".

Fixpoint escape (s : string) : string :=
  match s with
  | EmptyString => EmptyString
  | String c t => escape_char c +:+ escape t
  end.

Definition quote (s : string) : string :=
  String dquote (escape s +:+ String dquote "").

Fixpoint indent (level : nat) : string :=
  match level with
  | O => ""
  | S k => "  " +:+ indent k
  end.

Fixpoint join (sep : string) (l : list string) : string :=
  match l with
  | [] => ""
  | [x] => x
  | x :: rest => x +:+ sep +:+ join sep rest
  end.

Definition block (open close : string) (level : nat) (items : list string)
    : string :=
  match items with
  | [] => open +:+ close
  | _ :: _ =>
      open +:+ String newline "" +:+
      join ("," +:+ String newline "")
        (map (fun x => indent (S level) +:+ x) items) +:+
      String newline "" +:+ indent level +:+ close
  end.

Fixpoint dumps_at (level : nat) (v : value) : string :=
  match v with
  | VNone => "null"
  | VBool true => "true"
  | VBool false => "false"
  | VInt z => pretty z
  | VStr s => quote s
  | VList l => block "[" "]" level (map (dumps_at (S level)) l)
  | VDict d =>
      block "{" "}" level
        (map (fun kv => quote kv.1 +:+ ": " +:+ kv.2)
           (map_to_list (dumps_at (S level) <$> d)))
  end.

Definition dumps (v : value) : string := dumps_at 0 v.

(** *** Reader *)

Definition is_ws (c : ascii) : bool :=
  let n := nat_of_ascii c in
  (n =? 32)%nat || (n =? 10)%nat || (n =? 13)%nat || (n =? 9)%nat.

Fixpoint skip_ws (s : string) : string :=
  match s with
  | String c t => if is_ws c then skip_ws t else s
  | EmptyString => EmptyString
  end.

Definition hex_value (c : ascii) : option nat :=
  let n := nat_of_ascii c in
  if (48 <=? n)%nat && (n <=? 57)%nat then Some (n - 48)%nat
  else if (97 <=? n)%nat && (n <=? 102)%nat then Some (n - 87)%nat
  else if (65 <=? n)%nat && (n <=? 70)%nat then Some (n - 55)%nat
  else None.

(** The four hexadecimal digits after [\u]. *)
Definition read_u4 (s : string) : option (ascii * string) :=
  match s with
  | String a (String b (String c (String d rest))) =>
      match hex_value a, hex_value b, hex_value c, hex_value d with
      | Some x, Some y, Some z, Some w =>
          let n := (((x * 16 + y) * 16 + z) * 16 + w)%nat in
          if (n <? 128)%nat then Some (ascii_of_nat n, rest) else None
      | _, _, _, _ => None
      end
  | _ => None
  end.

Definition unescape (c : ascii) : option ascii :=
  let n := nat_of_ascii c in
  if Ascii.eqb c dquote then Some dquote
  else if Ascii.eqb c backslash then Some backslash
  else if (n =? 47)%nat then Some c
  else if (n =? 110)%nat then Some newline
  else if (n =? 114)%nat then Some (ascii_of_nat 13)
  else if (n =? 116)%nat then Some (ascii_of_nat 9)
  else if (n =? 98)%nat then Some (ascii_of_nat 8)
  else if (n =? 102)%nat then Some (ascii_of_nat 12)
  else None.

(** The characters of a string literal after its opening quote, up to the
    closing one. *)
Fixpoint read_string (fuel : nat) (s : string) : option (string * string) :=
  match fuel with
  | O => None
  | S fuel' =>
      match s with
      | EmptyString => None
      | String c t =>
          if Ascii.eqb c dquote then Some ("", t)
          else if Ascii.eqb c backslash then
            match t with
            | String e t' =>
                if Ascii.eqb e "u" then
                  match read_u4 t' with
                  | Some (x, rest) =>
                      match read_string fuel' rest with
                      | Some (r, rest') => Some (String x r, rest')
                      | None => None
                      end
                  | None => None
                  end
                else
                  match unescape e with
                  | Some x =>
                      match read_string fuel' t' with
                      | Some (r, rest') => Some (String x r, rest')
                      | None => None
                      end
                  | None => None
                  end
            | EmptyString => None
            end
          else if (nat_of_ascii c <? 32)%nat then None
          else
            match read_string fuel' t with
            | Some (r, rest') => Some (String c r, rest')
            | None => None
            end
      end
  end.

Definition is_digit (c : ascii) : bool :=
  let n := nat_of_ascii c in (48 <=? n)%nat && (n <=? 57)%nat.

Fixpoint read_digits (s : string) (acc : Z) : Z * string :=
  match s with
  | String c t =>
      if is_digit c
      then read_digits t (10 * acc + Z.of_nat (nat_of_ascii c - 48))
      else (acc, s)
  | EmptyString => (acc, s)
  end.

(** An integer literal without its sign: no leading zero, and no fraction
    or exponent after it. *)
Definition read_nat_literal (s : string) : option (Z * string) :=
  match s with
  | String c t =>
      if is_digit c then
        let '(n, rest) := read_digits s 0 in
        let leading_zero :=
          Ascii.eqb c "0" &&
          match t with String d _ => is_digit d | EmptyString => false end in
        let continues :=
          match rest with
          | String d _ =>
              Ascii.eqb d "." || Ascii.eqb d "e" || Ascii.eqb d "E"
          | EmptyString => false
          end in
        if leading_zero || continues then None else Some (n, rest)
      else None
  | EmptyString => None
  end.

(** [strip lit s] is what follows [lit] at the head of [s]. *)
Fixpoint strip (lit s : string) : option string :=
  match lit with
  | EmptyString => Some s
  | String a lit' =>
      match s with
      | String b s' => if Ascii.eqb a b then strip lit' s' else None
      | EmptyString => None
      end
  end.

Definition expect (lit : string) (v : value) (s : string)
    : option (value * string) :=
  match strip lit s with
  | Some rest => Some (v, rest)
  | None => None
  end.

Fixpoint read_value (fuel : nat) (s : string) {struct fuel}
    : option (value * string) :=
  match fuel with
  | O => None
  | S fuel' =>
      match skip_ws s with
      | EmptyString => None
      | String c t =>
          if Ascii.eqb c dquote then
            match read_string (S (String.length t)) t with
            | Some (x, rest) => Some (VStr x, rest)
            | None => None
            end
          else if Ascii.eqb c "[" then
            match skip_ws t with
            | String "]" rest => Some (VList [], rest)
            | _ =>
                match read_elements fuel' t with
                | Some (l, rest) => Some (VList l, rest)
                | None => None
                end
            end
          else if Ascii.eqb c "{" then
            match skip_ws t with
            | String "}" rest => Some (VDict ∅, rest)
            | _ =>
                match read_members fuel' t with
                | Some (d, rest) => Some (VDict d, rest)
                | None => None
                end
            end
          else if Ascii.eqb c "-" then
            match read_nat_literal t with
            | Some (n, rest) => Some (VInt (- n), rest)
            | None => None
            end
          else if is_digit c then
            match read_nat_literal (String c t) with
            | Some (n, rest) => Some (VInt n, rest)
            | None => None
            end
          else if Ascii.eqb c "n" then expect "null" VNone (String c t)
          else if Ascii.eqb c "t" then expect "true" (VBool true) (String c t)
          else if Ascii.eqb c "f" then expect "false" (VBool false) (String c t)
          else None
      end
  end

with read_elements (fuel : nat) (s : string) {struct fuel}
    : option (list value * string) :=
  match fuel with
  | O => None
  | S fuel' =>
      match read_value fuel' s with
      | Some (v, rest) =>
          match skip_ws rest with
          | String "," rest' =>
              match read_elements fuel' rest' with
              | Some (l, rest'') => Some (v :: l, rest'')
              | None => None
              end
          | String "]" rest' => Some ([v], rest')
          | _ => None
          end
      | None => None
      end
  end

with read_members (fuel : nat) (s : string) {struct fuel}
    : option (gmap string value * string) :=
  match fuel with
  | O => None
  | S fuel' =>
      match skip_ws s with
      | String c t =>
          if Ascii.eqb c dquote then
            match read_string (S (String.length t)) t with
            | Some (k, rest) =>
                match skip_ws rest with
                | String ":" rest1 =>
                    match read_value fuel' rest1 with
                    | Some (v, rest2) =>
                        match skip_ws rest2 with
                        | String "," rest3 =>
                            match read_members fuel' rest3 with
                            | Some (d, rest4) =>
                                Some (match d !! k with
                                      | Some _ => d
                                      | None => <[k := v]> d
                                      end, rest4)
                            | None => None
                            end
                        | String "}" rest3 => Some ({[k := v]}, rest3)
                        | _ => None
                        end
                    | None => None
                    end
                | _ => None
                end
            | None => None
            end
          else None
      | EmptyString => None
      end
  end.

(** A document is one value, with nothing but white space after it. *)
Definition loads (s : string) : option value :=
  match read_value (S (String.length s)) s with
  | Some (v, rest) =>
      match skip_ws rest with
      | EmptyString => Some v
      | String _ _ => None
      end
  | None => None
  end.

End MiniJson.

#[local] Instance mini_json : JsonLib :=
  mkJsonLib MiniJson.dumps MiniJson.loads.

(** ** Sample machines

    Concrete devices, worlds and records on which the definitions are run. *)

Definition speakers : AudioDevice :=
  mkAudioDevice (Some "{0.0.0.00000000}.{spk}") Active (Some eRender)
    (Some "Speakers (Realtek Audio)").

(** A device object without a [flow] attribute. *)
Definition headset : AudioDevice :=
  mkAudioDevice (Some "{0.0.0.00000000}.{hs}") Active None (Some "Headset").

Definition usb_microphone : AudioDevice :=
  mkAudioDevice (Some "{0.0.1.00000000}.{mic}") Active (Some eRender)
    (Some "USB MICROPHONE").

Definition stereo_mix : AudioDevice :=
  mkAudioDevice (Some "{0.0.1.00000000}.{mix}") Active (Some eCapture)
    (Some "Stereo Mix").

Definition unplugged_hdmi : AudioDevice :=
  mkAudioDevice (Some "{0.0.0.00000000}.{hdmi}") Unplugged (Some eRender)
    (Some "HDMI Output").

Definition nameless : AudioDevice :=
  mkAudioDevice (Some "{0.0.0.00000000}.{anon}") Active (Some eRender) None.

(** A system with no preferences file yet, that reports [devs], whose
    default render endpoint is [current] for every role, and whose policy
    interface accepts a call exactly when [accepts] says so. *)
Definition sample_world (devs : list AudioDevice) (current : option string)
    (accepts : string → nat → bool) : world :=
  mkWorld Missing true None (Ok devs) (fun _ => current) true accepts [].

Definition sample_machine (cfg : value) (w : world) : machine :=
  mkMachine (mkAudioSwitcher None [] cfg) w.

(** A favorite slot as the spec has it: a device id or unset. *)
Definition slot_value (o : option string) : value :=
  match o with
  | Some i => VStr i
  | None => VNone
  end.

Definition favorites (a b : value) : value :=
  VDict (<["favorite1" := a]> (<["favorite2" := b]> ∅)).

(** ** The machine after an endpoint call *)

(** The system after one guarded [SetDefaultEndpoint(device_id, role)] of
    [set_default_endpoint]: the call is on record, and the role's default
    has moved if the id is a string that the system accepts. *)
Definition after_call (device_id : value) (role : nat) (w : world) : world :=
  match device_id with
  | VStr s =>
      if endpoint_accepts w s role
      then set_render_default role s (record_call (device_id, role) w)
      else record_call (device_id, role) w
  | _ => record_call (device_id, role) w
  end.

(** The machine after [set_default_device(device_id)]. *)
Definition after_set_default (device_id : value) (m : machine) : machine :=
  mkMachine
    (mkAudioSwitcher (Some (mkPolicyConfigClient (policy_in_use m)))
       (_devices (self m)) (_config (self m)))
    (match policy_in_use m with
     | Some _ =>
         after_call device_id 2 (after_call device_id 1
           (after_call device_id 0 (os m)))
     | None => os m
     end).

(** ** Tray menu: labels, check marks and callbacks *)

(** The loop of [get_device_name] for an argument that is any stored value:
    [dev['id'] == device_id] holds only for a string equal to the id. *)
Fixpoint find_name_by (devices : list device) (device_id : value)
    : option string :=
  match devices with
  | [] => None
  | dev :: rest =>
      if py_eq_id (Some (id dev)) device_id then Some (name dev)
      else find_name_by rest device_id
  end.

Definition get_device_name_by (device_id : value) : M (option string) :=
  s <- get_self ;;
  ret (find_name_by (_devices s) device_id).

(** The closure returned by [_is_default(device_id)]. *)
Definition _is_default (device_id : string) : M bool :=
  current <- get_default_device_id ;;
  ret (py_eq_id current (VStr device_id)).

(** The closure returned by [_is_favorite(slot, device_id)]. *)
Definition _is_favorite (slot : Z) (device_id : string) : M bool :=
  s <- get_self ;;
  fav <- dict_get (_config s) (favorite_key slot) ;;
  ret (py_eq_id (Some device_id) fav).

(** The closure returned by [_get_favorite_label(slot)]. *)
Definition _get_favorite_label (slot : Z) : M string :=
  s <- get_self ;;
  fav <- dict_get (_config s) (favorite_key slot) ;;
  found <- get_device_name_by fav ;;
  ret ("즐찾 [" +:+ pretty slot +:+ "] " +:+ str_or found "(Not set)").

(** The closure returned by [_make_select_callback(device_id)]. *)
Definition _make_select_callback (device_id : string) : M unit :=
  set_default_device (VStr device_id).

Definition _on_click : M unit := toggle_favorites.

(** [icon.update_menu()] and [icon.stop()] act on the tray loop only. *)
Definition icon_update_menu : M unit := ret tt.
Definition icon_stop : M unit := ret tt.

Definition _on_refresh : M unit :=
  _refresh_devices ;;;
  icon_update_menu.

(** A [pystray] menu entry: [item(text, action, checked=...)] with a callback,
    [item(text, Menu(...))] with a submenu, or [Menu.SEPARATOR].  Texts and
    check marks are evaluated when the menu is shown. *)
Inductive menu_item : Type :=
  | item (text : M string) (action : M unit) (checked : option (M bool))
  | submenu (text : M string) (entries : list menu_item)
  | SEPARATOR.

(** The callbacks a user can trigger from an entry. *)
Fixpoint item_callbacks (it : menu_item) : list (M unit) :=
  match it with
  | item _ action _ => [action]
  | submenu _ entries => flat_map item_callbacks entries
  | SEPARATOR => []
  end.

Section menu.
Context `{JsonLib}.

(** The closure returned by [_make_favorite_callback(slot, device_id)]. *)
Definition _make_favorite_callback (slot : Z) (device_id : string) : M unit :=
  set_favorite slot (VStr device_id).

Definition _create_favorite_submenu (slot : Z) : M (list menu_item) :=
  s <- get_self ;;
  ret (map (fun device =>
         item (ret (name device))
           (_make_favorite_callback slot (id device))
           (Some (_is_favorite slot (id device))))
         (_devices s)).

Definition create_menu : M (list menu_item) :=
  sub1 <- _create_favorite_submenu 1 ;;
  sub2 <- _create_favorite_submenu 2 ;;
  s <- get_self ;;
  ret ([submenu (_get_favorite_label 1) sub1;
        submenu (_get_favorite_label 2) sub2;
        SEPARATOR] ++
       map (fun device =>
         item (ret (name device))
           (_make_select_callback (id device))
           (Some (_is_default (id device))))
         (_devices s) ++
       [SEPARATOR;
        item (ret "Refresh") _on_refresh None;
        item (ret "Exit") icon_stop None])%list.

(** The menu that [run] hands to the icon: the hidden default entry bound
    to the left click, then the entries of [create_menu]. *)
Definition tray_menu : M (list menu_item) :=
  entries <- create_menu ;;
  ret (item (ret "Toggle") _on_click None :: entries).
End menu.

(** ** [kill_existing_instance] *)

(** Python's white space among the ASCII characters, as [str.strip] and
    [str.isspace] see it. *)
Definition is_space (c : ascii) : bool :=
  let n := nat_of_ascii c in
  ((9 <=? n)%nat && (n <=? 13)%nat) ||
  ((28 <=? n)%nat && (n <=? 32)%nat).

Fixpoint lstrip (s : string) : string :=
  match s with
  | EmptyString => EmptyString
  | String c t => if is_space c then lstrip t else s
  end.

Fixpoint rstrip (s : string) : string :=
  match s with
  | EmptyString => EmptyString
  | String c t =>
      match rstrip t with
      | EmptyString => if is_space c then EmptyString else String c EmptyString
      | t' => String c t'
      end
  end.

(** [s.strip()] *)
Definition strip (s : string) : string := rstrip (lstrip s).

(** [s.split('\n')] *)
Fixpoint split_lines (s : string) : list string :=
  match s with
  | EmptyString => [EmptyString]
  | String c t =>
      if Ascii.eqb c "010" then EmptyString :: split_lines t
      else
        match split_lines t with
        | l :: ls => String c l :: ls
        | [] => [String c EmptyString]
        end
  end.

Definition digit_char (c : ascii) : bool :=
  let n := nat_of_ascii c in (48 <=? n)%nat && (n <=? 57)%nat.

Fixpoint all_digits (s : string) : bool :=
  match s with
  | EmptyString => true
  | String c t => digit_char c && all_digits t
  end.

(** [s.isdigit()] on ASCII text: at least one character, all of them
    decimal digits. *)
Definition isdigit (s : string) : bool :=
  match s with
  | EmptyString => false
  | String _ _ => all_digits s
  end.

Fixpoint int_from (acc : N) (s : string) : N :=
  match s with
  | EmptyString => acc
  | String c t => int_from (10 * acc + N.of_nat (nat_of_ascii c - 48)) t
  end.

(** [int(s)] for a string of decimal digits. *)
Definition int_of_digits (s : string) : N := int_from 0 s.

(** What the function sees of the host: its own pid, what each of the two
    [wmic] queries prints (or that running it raises), whether running
    [taskkill] for a pid raises, and the pids [taskkill] was run for. *)
Record host : Type := mkHost {
  current_pid : N;
  wmic_pythonw : result string;
  wmic_exe : result string;
  taskkill_raises : N → bool;
  taskkilled : list N
}.

(** [subprocess.run(['taskkill', '/f', '/pid', str(pid)], ...)] *)
Definition taskkill (pid : N) (h : host) : result unit * host :=
  let h' := mkHost (current_pid h) (wmic_pythonw h) (wmic_exe h)
              (taskkill_raises h) (taskkilled h ++ [pid])%list in
  if taskkill_raises h pid then (Raise OSError, h') else (Ok tt, h').

(** The [for line in ...] loop of either block. *)
Fixpoint kill_listed (lines : list string) (h : host) : result unit * host :=
  match lines with
  | [] => (Ok tt, h)
  | line :: rest =>
      let line := strip line in
      if isdigit line then
        let pid := int_of_digits line in
        if negb (N.eqb pid (current_pid h)) then
          match taskkill pid h with
          | (Ok _, h') => kill_listed rest h'
          | (Raise e, h') => (Raise e, h')
          end
        else kill_listed rest h
      else kill_listed rest h
  end.

(** The body of one [try] block, given the outcome of its [wmic] query. *)
Definition kill_block_try (query : result string) (h : host)
    : result unit * host :=
  match query with
  | Ok stdout => kill_listed (split_lines (strip stdout)) h
  | Raise e => (Raise e, h)
  end.

(** [try: ... except Exception: pass] around one block. *)
Definition kill_block (query : result string) (h : host) : result unit * host :=
  match kill_block_try query h with
  | (Ok a, h') => (Ok a, h')
  | (Raise _, h') => (Ok tt, h')
  end.

Definition kill_existing_instance (h : host) : result unit * host :=
  match kill_block (wmic_pythonw h) h with
  | (Ok _, h1) => kill_block (wmic_exe h1) h1
  | (Raise e, h1) => (Raise e, h1)
  end.

(** The pids that a block reads off the lines of a query's output: the
    numbers on the lines that, once stripped, are all digits. *)
Definition pids_on (lines : list string) : list N :=
  map int_of_digits (List.filter isdigit (map strip lines)).

Definition listed_pids (query : result string) : list N :=
  match query with
  | Ok stdout => pids_on (split_lines (strip stdout))
  | Raise _ => []
  end.

(** The pids of a list that are not the process's own. *)
Definition others (own : N) (pids : list N) : list N :=
  List.filter (fun pid => negb (N.eqb pid own)) pids.

(** The pids [taskkill] gets run for when it is run along a list and the
    first run that raises ends the loop. *)
Fixpoint until_raise (raises : N → bool) (pids : list N) : list N :=
  match pids with
  | [] => []
  | pid :: rest => if raises pid then [pid] else pid :: until_raise raises rest
  end.

(** The text [wmic ... get processid] prints for the pids [pids]: a header,
    then one padded line per pid, each ended by a carriage return and a
    line feed. *)
Definition wmic_table (pids : list N) : string :=
  fold_right (fun line acc => line +:+ acc) ""
    (("ProcessId  " +:+ String "013" (String "010" "")) ::
     map (fun pid => pretty pid +:+ "       " +:+ String "013" (String "010" ""))
       pids).

(** ** ASCII text

    [lower], [strip] and [isdigit] above follow [str.lower], [str.strip] and
    [str.isdigit] on the characters below 128; Python's methods also act on
    characters beyond them (other capitals, other white space, other
    digits).  The predicates below mark out the text on which the two
    agree. *)

Definition ascii_char (c : ascii) : bool := (nat_of_ascii c <? 128)%nat.

Fixpoint ascii_only (s : string) : bool :=
  match s with
  | EmptyString => true
  | String c t => ascii_char c && ascii_only t
  end.

(** The display name of a reported device is ASCII text (a device without
    a name counts as such: the enumerator reads its name as [""]). *)
Definition ascii_name (dev : AudioDevice) : bool :=
  ascii_only (default "" (FriendlyName dev)).

(** The output of a query is ASCII text (a query that raised has none). *)
Definition ascii_output (query : result string) : bool :=
  match query with
  | Ok stdout => ascii_only stdout
  | Raise _ => true
  end.

(** The longest digit string [int] is sure to accept: from 4301 digits on
    it may refuse with a [ValueError]. *)
Definition max_str_digits : nat := 4300.

(** The output of a query is ASCII text none of whose lines, once
    stripped, is longer than [max_str_digits]: on such output [int] reads
    every line that [isdigit] lets through. *)
Definition plain_output (query : result string) : bool :=
  match query with
  | Ok stdout =>
      ascii_only stdout &&
      forallb (fun line => (String.length (strip line) <=? max_str_digits)%nat)
        (split_lines (strip stdout))
  | Raise _ => true
  end.

(** A machine whose device list is already filled and a host with two
    query outputs, for running the menu and the start-up clean-up. *)
Definition listed_machine (cfg : value) (current : option string) : machine :=
  mkMachine
    (mkAudioSwitcher None
       [mkDevice "A" "Speakers"; mkDevice "B" "Headphones"] cfg)
    (sample_world [] current (fun _ _ => true)).

Definition sample_host : host :=
  mkHost 4242 (Ok (wmic_table [1200; 4242; 77]%N)) (Ok (wmic_table [9000]%N))
    (fun _ => false) [].

(** The entries of the tray menu built on [m] (the empty menu if building
    it raised). *)
Definition fst_menu_of (m : machine) : list menu_item :=
  match fst (tray_menu m) with
  | Ok entries => entries
  | Raise _ => []
  end.

(** * Properties *)

(** ** Sanity checks of the embedding on concrete inputs *)

Example favorite_key_1 : favorite_key 1 = "favorite1".
Proof. reflexivity. Qed.

Example lower_mixed : lower "Rear Green In" = "rear green in".
Proof. reflexivity. Qed.

Example contains_mid : contains "mic" "usb microphone" = true.
Proof. reflexivity. Qed.

Example contains_not : contains "mic" "speakers" = false.
Proof. reflexivity. Qed.

Example dumps_defaults :
  MiniJson.loads (MiniJson.dumps default_config) = Some default_config.
Proof. vm_compute. reflexivity. Qed.

Example loads_empty_document : MiniJson.loads "" = None.
Proof. reflexivity. Qed.

Example loads_truncated_document : MiniJson.loads "{ bad" = None.
Proof. reflexivity. Qed.

(** ** Running the monad *)

Lemma bind_ok {A B} (c : M A) (k : A → M B) m a m' :
  c m = (Ok a, m') → bind c k m = k a m'.
Proof. intros Hc. unfold bind. rewrite Hc. reflexivity. Qed.

Lemma bind_raise {A B} (c : M A) (k : A → M B) m e m' :
  c m = (Raise e, m') → bind c k m = (Raise e, m').
Proof. intros Hc. unfold bind. rewrite Hc. reflexivity. Qed.

Lemma try_except_ok {A} (body handler : M A) m a m' :
  body m = (Ok a, m') → try_except body handler m = (Ok a, m').
Proof. intros Hb. unfold try_except. rewrite Hb. reflexivity. Qed.

Lemma try_except_raise {A} (body handler : M A) m e m' :
  body m = (Raise e, m') → try_except body handler m = handler m'.
Proof. intros Hb. unfold try_except. rewrite Hb. reflexivity. Qed.

(** Runs the first command of a sequence when it returns by computation. *)
Ltac step_ok :=
  etransitivity; [ eapply bind_ok; reflexivity | cbv beta ].

Lemma machine_eta m : mkMachine (self m) (os m) = m.
Proof. destruct m; reflexivity. Qed.

(** ** Default endpoint controller *)

(** One guarded call: it never raises, it leaves the process state alone and
    it appends exactly one entry to the call log, whatever the system
    answers. *)
Lemma guarded_call p device_id role m :
  ∃ w,
    try_except (SetDefaultEndpoint p device_id role) (ret tt) m
      = (Ok tt, mkMachine (self m) w) ∧
    endpoint_calls w = (endpoint_calls (os m) ++ [(device_id, role)])%list ∧
    endpoint_accepts w = endpoint_accepts (os m) ∧
    policy_available w = policy_available (os m) ∧
    config_file w = config_file (os m) ∧
    all_devices w = all_devices (os m).
Proof.
  destruct m as [s w]; cbn.
  destruct device_id as [ | b | z | str | l | d ];
    try (eexists; split; [reflexivity | cbn; auto]).
  unfold try_except, SetDefaultEndpoint, bind, get_os, put_os, raise, ret; cbn.
  destruct (endpoint_accepts w str role); cbn;
    (eexists; split; [reflexivity | cbn; auto]).
Qed.

Lemma set_default_endpoint_calls p device_id m :
  ∃ w,
    set_default_endpoint (mkPolicyConfigClient (Some p)) device_id m
      = (Ok tt, mkMachine (self m) w) ∧
    endpoint_calls w =
      (endpoint_calls (os m) ++
        [(device_id, 0%nat); (device_id, 1%nat); (device_id, 2%nat)])%list ∧
    config_file w = config_file (os m) ∧
    all_devices w = all_devices (os m).
Proof.
  unfold set_default_endpoint, roles; cbn [_policy_config seq for_each].
  destruct (guarded_call p device_id 0 m) as (w0 & E0 & C0 & _ & _ & F0 & D0).
  destruct (guarded_call p device_id 1 (mkMachine (self m) w0))
    as (w1 & E1 & C1 & _ & _ & F1 & D1).
  destruct (guarded_call p device_id 2 (mkMachine (self m) w1))
    as (w2 & E2 & C2 & _ & _ & F2 & D2).
  cbn in *.
  exists w2. split.
  - rewrite (bind_ok _ _ _ _ _ E0), (bind_ok _ _ _ _ _ E1),
      (bind_ok _ _ _ _ _ E2). reflexivity.
  - rewrite C2, C1, C0, F2, F1, F0, D2, D1, D0, <- !app_assoc.
    auto.
Qed.

Lemma set_default_endpoint_none device_id m :
  set_default_endpoint (mkPolicyConfigClient None) device_id m = (Ok tt, m).
Proof. reflexivity. Qed.

Lemma init_unavailable m :
  policy_available (os m) = false →
  PolicyConfigClient_init m = (Ok (mkPolicyConfigClient None), m).
Proof.
  intros Hp. destruct m as [s w]; cbn in *.
  unfold PolicyConfigClient_init, _init_policy_config, try_except, bind,
    CoCreateInstance_PolicyConfig, get_os; cbn.
  rewrite Hp. reflexivity.
Qed.

Lemma init_available m :
  policy_available (os m) = true →
  PolicyConfigClient_init m = (Ok (mkPolicyConfigClient (Some ComPointer)), m).
Proof.
  intros Hp. destruct m as [s w]; cbn in *.
  unfold PolicyConfigClient_init, _init_policy_config, try_except, bind,
    CoCreateInstance_PolicyConfig, get_os; cbn.
  rewrite Hp. reflexivity.
Qed.

Lemma set_default_device_run device_id m :
  ∃ s w,
    set_default_device device_id m = (Ok tt, mkMachine s w) ∧
    _config s = _config (self m) ∧
    _devices s = _devices (self m) ∧
    config_file w = config_file (os m) ∧
    all_devices w = all_devices (os m) ∧
    match policy_in_use m with
    | Some _ =>
        endpoint_calls w =
          (endpoint_calls (os m) ++
            [(device_id, 0%nat); (device_id, 1%nat); (device_id, 2%nat)])%list
    | None => w = os m
    end.
Proof.
  destruct m as [[pc ds cfg] w]. unfold policy_in_use; cbn.
  destruct pc as [[[p|]]|].
  - destruct (set_default_endpoint_calls p device_id
                (mkMachine (mkAudioSwitcher
                   (Some (mkPolicyConfigClient (Some p))) ds cfg) w))
      as (w' & E & C & F & D).
    exists (mkAudioSwitcher (Some (mkPolicyConfigClient (Some p))) ds cfg), w'.
    split; [exact E | cbn in *; auto].
  - eexists _, _. split; [reflexivity | cbn; auto].
  - destruct (policy_available w) eqn:Hp.
    + set (m0 := mkMachine (mkAudioSwitcher None ds cfg) w).
      set (s1 := mkAudioSwitcher
                   (Some (mkPolicyConfigClient (Some ComPointer))) ds cfg).
      destruct (set_default_endpoint_calls ComPointer device_id
                  (mkMachine s1 w)) as (w' & E & C & F & D).
      exists s1, w'. split; [ | cbn in *; auto].
      unfold set_default_device, bind, get_self; cbn.
      fold m0. rewrite (init_available m0 Hp). cbn. exact E.
    + eexists _, _. split.
      * unfold set_default_device, bind, get_self; cbn.
        rewrite (init_unavailable (mkMachine (mkAudioSwitcher None ds cfg) w) Hp).
        cbn. reflexivity.
      * cbn; auto.
Qed.

(** C9. Whatever the device id and whatever the system answers to each call,
    [set_default_device] returns normally.  When a policy-configuration
    interface is at hand it makes exactly the three calls for roles 0, 1 and
    2, in this order, each one made even if the ones before it raised; when
    the interface could not be created it leaves the system untouched.  The
    preferences and the device list are not affected either way. *)
Theorem set_default_device_all_roles (device_id : value) (m : machine) :
  ∃ s w,
    set_default_device device_id m = (Ok tt, mkMachine s w) ∧
    _config s = _config (self m) ∧
    _devices s = _devices (self m) ∧
    (policy_in_use m ≠ None →
       endpoint_calls w =
         (endpoint_calls (os m) ++
           [(device_id, 0%nat); (device_id, 1%nat); (device_id, 2%nat)])%list) ∧
    (policy_in_use m = None → w = os m).
Proof.
  destruct (set_default_device_run device_id m) as (s & w & E & C & D & _ & _ & P).
  exists s, w. repeat split; try assumption.
  - intros Hp. destruct (policy_in_use m); [exact P | congruence].
  - intros Hp. rewrite Hp in P. exact P.
Qed.

(** ** Favorite toggle *)

Lemma get_default_device_id_run m :
  get_default_device_id m = (Ok (render_default (os m) 0), m).
Proof.
  destruct m as [s w].
  unfold get_default_device_id, try_except, bind, GetDefaultAudioEndpoint_GetId,
    get_os; cbn.
  destruct (render_default w 0); reflexivity.
Qed.

Lemma truthy_id (x : string) : x ≠ "" → truthy (VStr x) = true.
Proof.
  intros Hx. cbn. destruct (String.eqb_spec x ""); [contradiction | reflexivity].
Qed.

Lemma py_eq_id_str cur (a : string) :
  py_eq_id cur (VStr a) = bool_decide (cur = Some a).
Proof.
  destruct cur as [c|]; cbn.
  - destruct (String.eqb_spec c a) as [->|Hne].
    + rewrite bool_decide_eq_true_2; reflexivity.
    + rewrite bool_decide_eq_false_2; [reflexivity | congruence].
  - rewrite bool_decide_eq_false_2; [reflexivity | congruence].
Qed.

(** The guard of [toggle_favorites]: as soon as one of the two stored values
    is falsy the method returns at once. *)
Lemma toggle_favorites_falsy m d :
  _config (self m) = VDict d →
  truthy (default VNone (d !! "favorite1")) = false ∨
  truthy (default VNone (d !! "favorite2")) = false →
  toggle_favorites m = (Ok tt, m).
Proof.
  intros Hc Hf. destruct m as [s w]; cbn in Hc.
  unfold toggle_favorites, bind, get_self; cbn. rewrite Hc; cbn.
  destruct Hf as [-> | ->]; cbn; [reflexivity | ].
  rewrite orb_true_r. reflexivity.
Qed.

(** C1. With both favorites set (each a non-empty device id), the toggle is
    a call of [set_default_device]: on [favorite2] when the current default
    id is [favorite1], and on [favorite1] for any other current id,
    [favorite2] and the unreadable default ([None]) included.  It returns
    normally, and with a policy interface at hand the calls that reach the
    system are the three role calls for that target. *)
Theorem toggle_favorites_policy (m : machine) (d : gmap string value)
    (a b : string) (current : option string) :
  _config (self m) = VDict d →
  d !! "favorite1" = Some (VStr a) → a ≠ "" →
  d !! "favorite2" = Some (VStr b) → b ≠ "" →
  get_default_device_id m = (Ok current, m) →
  let target := VStr (if decide (current = Some a) then b else a) in
  toggle_favorites m = set_default_device target m ∧
  ∃ s w,
    toggle_favorites m = (Ok tt, mkMachine s w) ∧
    (policy_in_use m ≠ None →
       endpoint_calls w =
         (endpoint_calls (os m) ++
           [(target, 0%nat); (target, 1%nat); (target, 2%nat)])%list).
Proof.
  intros Hc H1 Ha H2 Hb Hcur target.
  assert (Ht : toggle_favorites m = set_default_device target m).
  { unfold toggle_favorites.
    rewrite (bind_ok get_self _ m (self m) m eq_refl), Hc.
    rewrite (bind_ok (dict_get (VDict d) "favorite1") _ m (VStr a) m)
      by (unfold dict_get, ret; rewrite H1; reflexivity).
    rewrite (bind_ok (dict_get (VDict d) "favorite2") _ m (VStr b) m)
      by (unfold dict_get, ret; rewrite H2; reflexivity).
    rewrite (truthy_id a Ha), (truthy_id b Hb); cbn [negb orb].
    rewrite (bind_ok get_default_device_id _ m current m Hcur), py_eq_id_str.
    subst target. destruct (decide (current = Some a)) as [Heq|Hne].
    - rewrite bool_decide_eq_true_2; [reflexivity | assumption].
    - rewrite bool_decide_eq_false_2; [reflexivity | assumption]. }
  split; [exact Ht | ].
  destruct (set_default_device_run target m) as (s & w & E & _ & _ & _ & _ & P).
  exists s, w. split; [rewrite Ht; exact E | ].
  intros Hp. destruct (policy_in_use m); [exact P | congruence].
Qed.

(** C2. When one of the two favorites is unset (its key is absent or holds
    [None]), the toggle returns normally and changes nothing: no endpoint
    call, no change of the process state, whatever the current default. *)
Theorem toggle_favorites_unset_noop (m : machine) (d : gmap string value) :
  _config (self m) = VDict d →
  unset (d !! "favorite1") ∨ unset (d !! "favorite2") →
  toggle_favorites m = (Ok tt, m).
Proof.
  intros Hc Hu. apply (toggle_favorites_falsy m d Hc).
  destruct Hu as [[-> | ->] | [-> | ->]]; cbn; auto.
Qed.

(** ** Device enumerator *)

Lemma refresh_loop_run devs s w :
  for_each devs (fun dev =>
      s' <- get_self ;; set_devices (refresh_step (_devices s') dev))
    (mkMachine s w)
  = (Ok tt,
     mkMachine
       (mkAudioSwitcher (policy_client s)
          (fold_left refresh_step devs (_devices s)) (_config s)) w).
Proof.
  revert s. induction devs as [|dev devs IH]; intros s.
  - destruct s; reflexivity.
  - cbn [for_each fold_left].
    step_ok.
    apply (IH (mkAudioSwitcher (policy_client s)
                 (refresh_step (_devices s) dev) (_config s))).
Qed.

Lemma refresh_devices_ok m devs :
  all_devices (os m) = Ok devs →
  _refresh_devices m =
    (Ok tt,
     mkMachine
       (mkAudioSwitcher (policy_client (self m))
          (fold_left refresh_step devs []) (_config (self m))) (os m)).
Proof.
  intros Hd. destruct m as [s w]; cbn in Hd |- *.
  apply try_except_ok.
  etransitivity;
    [ eapply bind_ok; unfold GetAllDevices, bind, get_os; cbn; rewrite Hd;
      reflexivity | ].
  apply refresh_loop_run.
Qed.

Lemma refresh_devices_raise m e :
  all_devices (os m) = Raise e →
  _refresh_devices m =
    (Ok tt,
     mkMachine (mkAudioSwitcher (policy_client (self m)) [] (_config (self m)))
       (os m)).
Proof.
  intros Hd. destruct m as [s w]; cbn in Hd |- *.
  apply (try_except_raise _ _ _ e).
  apply bind_raise.
  unfold GetAllDevices, bind, get_os; cbn; rewrite Hd; reflexivity.
Qed.

Lemma enumerated_ok m devs :
  all_devices (os m) = Ok devs →
  enumerated m = fold_left refresh_step devs [].
Proof.
  intros Hd. unfold enumerated. rewrite (refresh_devices_ok m devs Hd).
  reflexivity.
Qed.

(** C6. When the system query raises, [_refresh_devices] itself returns
    normally and leaves an empty device list, whatever the list held before;
    nothing else changes. *)
Theorem refresh_devices_failure_empty (m : machine) (e : exn) :
  all_devices (os m) = Raise e →
  _refresh_devices m =
    (Ok tt,
     mkMachine (mkAudioSwitcher (policy_client (self m)) [] (_config (self m)))
       (os m)) ∧
  enumerated m = [].
Proof.
  intros Hd. pose proof (refresh_devices_raise m e Hd) as Hr.
  split; [exact Hr | ]. unfold enumerated. rewrite Hr. reflexivity.
Qed.

Lemma state_name_active dev :
  String.eqb (state_name (state dev)) "Active" = true ↔ state dev = Active.
Proof. destruct (state dev); cbn; split; congruence. Qed.

Lemma flow_skipped_false dev :
  flow_skipped dev = false ↔ flow dev = None ∨ flow dev = Some eRender.
Proof.
  unfold flow_skipped. destruct (flow dev) as [[ | | ]|]; cbn; split;
    intros; try tauto; try congruence; destruct H; congruence.
Qed.

Lemma truthy_str_true o :
  truthy_str o = true ↔ ∃ x, o = Some x ∧ x ≠ "".
Proof.
  destruct o as [x|]; cbn.
  - destruct (String.eqb_spec x ""); cbn; split.
    + discriminate.
    + intros (y & [= <-] & Hy). contradiction.
    + eauto.
    + reflexivity.
  - split; [discriminate | intros (x & [=] & _)].
Qed.

Lemma truthy_str_false o :
  truthy_str o = false ↔ o = None ∨ o = Some "".
Proof.
  destruct o as [x|]; cbn.
  - destruct (String.eqb_spec x ""); cbn; split; subst; auto; try discriminate.
    intros [[=] | [= ->]]. contradiction.
  - split; auto.
Qed.

Lemma str_or_empty o : str_or o "" = default "" o.
Proof.
  unfold str_or. destruct (truthy_str o) eqn:Ht; [reflexivity | ].
  apply truthy_str_false in Ht as [-> | ->]; reflexivity.
Qed.

(** [refresh_step] either leaves the list alone or appends one entry, and
    which of the two depends on the device only. *)
Lemma refresh_step_listed devices dev :
  refresh_step devices dev =
    if listed dev then
      (devices ++
        [mkDevice (default "" (dev_id dev))
           (str_or (Some (str_or (FriendlyName dev) ""))
              ("Device " +:+ pretty (List.length devices + 1)%nat))])%list
    else devices.
Proof.
  unfold refresh_step, listed.
  destruct (String.eqb (state_name (state dev)) "Active" &&
            truthy_str (dev_id dev)); cbn [andb negb]; [ | reflexivity].
  destruct (flow_skipped dev); cbn [andb negb]; [reflexivity | ].
  destruct (name_skipped (str_or (FriendlyName dev) "")); reflexivity.
Qed.

Lemma refresh_step_unlisted devices dev :
  listed dev = false → refresh_step devices dev = devices.
Proof. intros Hl. rewrite refresh_step_listed, Hl. reflexivity. Qed.

(** A device that fails the tests contributes nothing: the result is the one
    obtained without it. *)
Lemma enumerated_without m l1 dev l2 :
  listed dev = false →
  enumerated (reporting (Ok (l1 ++ dev :: l2)%list) m) =
  enumerated (reporting (Ok (l1 ++ l2)%list) m).
Proof.
  intros Hl.
  rewrite (enumerated_ok (reporting (Ok (l1 ++ dev :: l2)%list) m)
             (l1 ++ dev :: l2)%list eq_refl).
  rewrite (enumerated_ok (reporting (Ok (l1 ++ l2)%list) m)
             (l1 ++ l2)%list eq_refl).
  rewrite !fold_left_app. cbn [fold_left].
  rewrite (refresh_step_unlisted _ dev Hl). reflexivity.
Qed.

Lemma name_skipped_blacklisted nm :
  name_skipped nm = true ↔ blacklisted nm.
Proof.
  unfold name_skipped, blacklisted. rewrite existsb_exists.
  split; intros (p & Hp & Hc); exists p; split; try assumption;
    apply list_elem_of_In; assumption.
Qed.

Lemma new_entry_origin all dev (n : nat) :
  dev ∈ all → listed dev = true →
  origin all n
    (mkDevice (default "" (dev_id dev))
       (str_or (Some (str_or (FriendlyName dev) ""))
          ("Device " +:+ pretty (n + 1)%nat))).
Proof.
  intros Hin Hl. pose proof Hl as Hl'. unfold listed in Hl'.
  apply andb_prop in Hl' as [Hl' _]. apply andb_prop in Hl' as [Hl' _].
  apply andb_prop in Hl' as [_ Hid].
  apply truthy_str_true in Hid as (x & Hx & Hne).
  rewrite Nat.add_1_r, str_or_empty.
  unfold origin, stems_from; cbn [id name]. rewrite Hx.
  change (default "" (Some x)) with x.
  destruct (truthy_str (FriendlyName dev)) eqn:Hfn.
  - apply truthy_str_true in Hfn as (nm & Hnm & Hnm').
    rewrite Hnm. change (default "" (Some nm)) with nm.
    assert (Hs : str_or (Some nm) ("Device " +:+ pretty (S n)) = nm).
    { unfold str_or. rewrite (proj2 (truthy_str_true (Some nm))) by eauto.
      reflexivity. }
    rewrite Hs. split; [assumption | split; [assumption | ]].
    exists dev. repeat split; try assumption.
    + rewrite Hnm. intros nm' [= <-] _. reflexivity.
    + rewrite Hnm. intros [[=] | [= ->]]. contradiction.
  - assert (Hd : default "" (FriendlyName dev) = "").
    { apply truthy_str_false in Hfn as [-> | ->]; reflexivity. }
    rewrite Hd. change (str_or (Some "") ?d) with d.
    split; [assumption | split; [discriminate | ]].
    exists dev. repeat split; try assumption.
    intros nm Hnm Hnm'. apply truthy_str_false in Hfn as [Hfn | Hfn];
      rewrite Hfn in Hnm; [discriminate | ]. injection Hnm as <-. contradiction.
Qed.

Lemma refresh_fold_origin all devs :
  (∀ dev, dev ∈ devs → dev ∈ all) →
  ∀ acc : list device,
    (∀ i e, acc !! i = Some e → origin all i e) →
    ∀ i e, fold_left refresh_step devs acc !! i = Some e → origin all i e.
Proof.
  induction devs as [|dev devs IH]; intros Hsub acc Hacc; [exact Hacc | ].
  cbn [fold_left]. apply IH.
  - intros d Hd. apply Hsub. right. exact Hd.
  - rewrite refresh_step_listed.
    destruct (listed dev) eqn:Hl; [ | exact Hacc].
    intros i e Hi. apply lookup_snoc_Some in Hi as [[_ Hi] | [-> <-]].
    + apply Hacc. exact Hi.
    + apply new_entry_origin; [apply Hsub; left | assumption].
Qed.

Lemma enumerated_origin m devs :
  all_devices (os m) = Ok devs →
  ∀ i e, enumerated m !! i = Some e → origin devs i e.
Proof.
  intros Hd i e. rewrite (enumerated_ok m devs Hd).
  apply refresh_fold_origin; [auto | ].
  intros j x Hj. rewrite lookup_nil in Hj. discriminate.
Qed.

Lemma enumerated_reported m i e :
  enumerated m !! i = Some e → ∃ devs, all_devices (os m) = Ok devs.
Proof.
  destruct (all_devices (os m)) as [devs|ex] eqn:Hd; [eauto | ].
  unfold enumerated. rewrite (refresh_devices_raise m ex Hd); cbn.
  rewrite lookup_nil. discriminate.
Qed.

Lemma listed_sound dev :
  listed dev = true →
  state dev = Active ∧ (flow dev = Some eRender ∨ flow dev = None) ∧
  ¬ blacklisted (default "" (FriendlyName dev)).
Proof.
  unfold listed. intros Hl.
  apply andb_prop in Hl as [Hl Hn]. apply andb_prop in Hl as [Hl Hf].
  apply andb_prop in Hl as [Hs _].
  split; [apply state_name_active; exact Hs | split].
  - apply negb_true_iff, flow_skipped_false in Hf. tauto.
  - rewrite <- str_or_empty, <- name_skipped_blacklisted.
    apply negb_true_iff in Hn. rewrite Hn. discriminate.
Qed.

(** *** Synthetic names are never blacklisted *)

Lemma chars_append (a b : string) :
  list_ascii_of_string (a +:+ b) =
  (list_ascii_of_string a ++ list_ascii_of_string b)%list.
Proof.
  induction a as [|c a IH]; simpl; [reflexivity | rewrite IH; reflexivity].
Qed.

Lemma prefix_chars p : ∀ s c,
  String.prefix p s = true →
  In c (list_ascii_of_string p) → In c (list_ascii_of_string s).
Proof.
  induction p as [|a p IH]; intros s c Hp Hc; [destruct Hc | ].
  destruct s as [|b s]; [discriminate | ]. cbn in Hp.
  destruct (ascii_dec a b) as [-> | ]; [ | discriminate].
  destruct Hc as [<- | Hc]; [left; reflexivity | right; eauto].
Qed.

Lemma contains_chars p s c :
  contains p s = true →
  In c (list_ascii_of_string p) → In c (list_ascii_of_string s).
Proof.
  induction s as [|b s IH]; intros Hp Hc.
  - cbn [contains] in Hp. rewrite orb_false_r in Hp.
    exact (prefix_chars p _ c Hp Hc).
  - cbn [contains] in Hp. apply orb_prop in Hp as [Hp | Hp].
    + exact (prefix_chars p _ c Hp Hc).
    + right. exact (IH Hp Hc).
Qed.

Lemma lower_chars s c :
  In c (list_ascii_of_string (lower s)) →
  ∃ c', In c' (list_ascii_of_string s) ∧ c = lower_ascii c'.
Proof.
  induction s as [|a s IH]; cbn; [intros [] | ].
  intros [<- | Hc]; [eauto | ].
  destruct (IH Hc) as (c' & Hc' & ->). eauto.
Qed.

Lemma pretty_N_char_digit x :
  In (pretty_N_char x) (list_ascii_of_string "0123456789").
Proof. unfold pretty_N_char. repeat case_match; cbn; tauto. Qed.

Lemma pretty_N_go_chars x : ∀ s c,
  In c (list_ascii_of_string (pretty_N_go x s)) →
  In c (list_ascii_of_string s) ∨ In c (list_ascii_of_string "0123456789").
Proof.
  induction (N.lt_wf_0 x) as [x _ IH]; intros s c Hc.
  destruct (decide (x = 0)%N) as [-> | Hx].
  - rewrite pretty_N_go_0 in Hc. left. exact Hc.
  - rewrite pretty_N_go_step in Hc by lia.
    apply IH in Hc; [ | apply N.div_lt; lia].
    destruct Hc as [[<- | Hc] | Hc]; auto.
    right. apply pretty_N_char_digit.
Qed.

Lemma pretty_nat_chars (n : nat) c :
  In c (list_ascii_of_string (pretty n)) →
  In c (list_ascii_of_string "0123456789").
Proof.
  unfold pretty, pretty_nat, pretty, pretty_N.
  destruct (decide (N.of_nat n = 0)%N).
  - cbn. tauto.
  - intros Hc. apply pretty_N_go_chars in Hc as [[] | Hc]. exact Hc.
Qed.

(** Every pattern has a letter that occurs in no synthetic name. *)
Lemma skip_patterns_foreign_letter :
  forallb (fun pattern =>
      existsb (fun c =>
          negb (existsb (fun c' => Ascii.eqb c (lower_ascii c'))
                  (list_ascii_of_string "Device 0123456789")))
        (list_ascii_of_string (lower pattern)))
    skip_patterns = true.
Proof. vm_compute. reflexivity. Qed.

Lemma synthetic_name_not_skipped (n : nat) :
  name_skipped ("Device " +:+ pretty n) = false.
Proof.
  destruct (name_skipped ("Device " +:+ pretty n)) eqn:Hs; [ | reflexivity].
  exfalso. unfold name_skipped in Hs.
  apply existsb_exists in Hs as (pattern & Hin & Hc).
  pose proof skip_patterns_foreign_letter as Hf.
  rewrite forallb_forall in Hf. specialize (Hf pattern Hin).
  apply existsb_exists in Hf as (c & Hcin & Hnot).
  apply negb_true_iff in Hnot.
  assert (Hex : existsb (fun c' => Ascii.eqb c (lower_ascii c'))
                  (list_ascii_of_string "Device 0123456789") = true).
  { pose proof (contains_chars _ _ c Hc Hcin) as Hname.
    apply lower_chars in Hname as (c' & Hc' & ->).
    apply existsb_exists. exists c'. split; [ | apply Ascii.eqb_refl].
    rewrite chars_append in Hc'. apply in_app_or in Hc' as [Hc' | Hc'].
    - change (list_ascii_of_string "Device 0123456789")
        with (list_ascii_of_string "Device " ++
              list_ascii_of_string "0123456789")%list.
      apply in_or_app. left. exact Hc'.
    - change (list_ascii_of_string "Device 0123456789")
        with (list_ascii_of_string "Device " ++
              list_ascii_of_string "0123456789")%list.
      apply in_or_app. right. exact (pretty_nat_chars n c' Hc'). }
  congruence.
Qed.

Lemma origin_not_blacklisted all i e :
  origin all i e → ¬ blacklisted (name e).
Proof.
  intros (_ & _ & dev & _ & Hl & _ & Hfn & Hsyn).
  apply listed_sound in Hl as (_ & _ & Hnb).
  destruct (truthy_str (FriendlyName dev)) eqn:Ht.
  - apply truthy_str_true in Ht as (nm & Hnm & Hne).
    rewrite (Hfn nm Hnm Hne). rewrite Hnm in Hnb. exact Hnb.
  - apply truthy_str_false in Ht. rewrite (Hsyn Ht).
    rewrite <- name_skipped_blacklisted, synthetic_name_not_skipped.
    discriminate.
Qed.

(** C4. A reported device whose display name contains, case-insensitively,
    one of the blacklist substrings is excluded: the enumeration result is
    the one obtained from the report without that device, and no entry of it
    bears a blacklisted name. *)
Theorem blacklisted_device_excluded (m : machine)
    (l1 l2 : list AudioDevice) (dev : AudioDevice) (nm : string) :
  FriendlyName dev = Some nm →
  blacklisted nm →
  enumerated (reporting (Ok (l1 ++ dev :: l2)%list) m) =
  enumerated (reporting (Ok (l1 ++ l2)%list) m) ∧
  ∀ e, e ∈ enumerated (reporting (Ok (l1 ++ dev :: l2)%list) m) →
       ¬ blacklisted (name e).
Proof.
  intros Hn Hb. split.
  - apply enumerated_without.
    unfold listed. rewrite str_or_empty, Hn.
    change (default "" (Some nm)) with nm.
    apply name_skipped_blacklisted in Hb. rewrite Hb.
    apply andb_false_r.
  - intros e He. apply list_elem_of_lookup in He as [i Hi].
    apply (origin_not_blacklisted (l1 ++ dev :: l2)%list i).
    exact (enumerated_origin (reporting (Ok (l1 ++ dev :: l2)%list) m)
             (l1 ++ dev :: l2)%list eq_refl i e Hi).
Qed.

(** C3. Whatever the system reports, every entry of the enumeration result
    has a non-empty id and a non-empty name; it stems from a reported device
    with that id, and when this device has no display name (absent or empty)
    the entry is named ["Device N"], [N] being its 1-based position in the
    result. *)
Theorem enumerated_entries_named (m : machine) (i : nat) (e : device) :
  enumerated m !! i = Some e →
  id e ≠ "" ∧ name e ≠ "" ∧
  ∃ devs dev,
    all_devices (os m) = Ok devs ∧ dev ∈ devs ∧
    dev_id dev = Some (id e) ∧
    (∀ nm, FriendlyName dev = Some nm → nm ≠ "" → name e = nm) ∧
    (FriendlyName dev = None ∨ FriendlyName dev = Some "" →
       name e = "Device " +:+ pretty (S i)).
Proof.
  intros Hi. destruct (enumerated_reported m i e Hi) as [devs Hd].
  destruct (enumerated_origin m devs Hd i e Hi)
    as (Hid & Hname & dev & Hin & _ & Hdev & Hfn & Hsyn).
  split; [assumption | split; [assumption | ]].
  exists devs, dev. auto.
Qed.

(** ** Preference store *)

Section store_facts.
Context `{JsonLib}.

Lemma load_config_try_missing m :
  config_file (os m) = Missing → load_config_try m = (Ok None, m).
Proof.
  intros Hf. destruct m as [s w]; cbn in Hf.
  unfold load_config_try, bind, path_exists, get_os, ret; cbn.
  rewrite Hf. reflexivity.
Qed.

Lemma load_config_try_denied m :
  config_file (os m) = Denied → load_config_try m = (Raise OSError, m).
Proof.
  intros Hf. destruct m as [s w]; cbn in Hf.
  unfold load_config_try, bind, path_exists, open_read, get_os, ret; cbn.
  rewrite Hf; cbn. rewrite Hf. reflexivity.
Qed.

Lemma load_config_try_content m s :
  config_file (os m) = Content s →
  load_config_try m =
    match json_loads s with
    | Some v => (Ok (Some v), m)
    | None => (Raise JSONDecodeError, m)
    end.
Proof.
  intros Hf. destruct m as [a w]; cbn in Hf.
  unfold load_config_try, bind, path_exists, open_read, json_load, get_os,
    ret; cbn.
  rewrite Hf; cbn. rewrite Hf. destruct (json_loads s); reflexivity.
Qed.

(** What [load_config] returns, by the state of the file. *)
Lemma load_config_run m :
  load_config m =
    (Ok match config_file (os m) with
        | Content s => default default_config (json_loads s)
        | Missing | Denied => default_config
        end, m).
Proof.
  unfold load_config.
  destruct (config_file (os m)) as [ | | s] eqn:Hf.
  - rewrite (bind_ok _ _ m None m); [reflexivity | ].
    apply try_except_ok, load_config_try_missing, Hf.
  - rewrite (bind_ok _ _ m None m); [reflexivity | ].
    rewrite (try_except_raise _ _ m OSError m); [reflexivity | ].
    apply load_config_try_denied, Hf.
  - pose proof (load_config_try_content m s Hf) as Ht.
    destruct (json_loads s) as [v|].
    + rewrite (bind_ok _ _ m (Some v) m); [reflexivity | ].
      apply try_except_ok, Ht.
    + rewrite (bind_ok _ _ m None m); [reflexivity | ].
      rewrite (try_except_raise _ _ m JSONDecodeError m); [reflexivity | ].
      exact Ht.
Qed.

(** C7, amended. [load_config] never raises and leaves the machine as it
    is.  On a missing file, on a file that cannot be opened, and on a file
    whose text the JSON reader rejects (the empty text being one, for a
    reader that rejects it), it returns the default record, in which both
    favorites are unset.  Text that the reader accepts is returned as
    read, whatever its shape. *)
Theorem load_config_resilient (m : machine) :
  (∃ v, load_config m = (Ok v, m)) ∧
  (config_file (os m) = Missing ∨ config_file (os m) = Denied ∨
   (∃ s, config_file (os m) = Content s ∧ json_loads s = None) →
     load_config m = (Ok default_config, m)) ∧
  (json_loads "" = None → config_file (os m) = Content "" →
     load_config m = (Ok default_config, m)) ∧
  (∀ s v, config_file (os m) = Content s → json_loads s = Some v →
     load_config m = (Ok v, m)) ∧
  (∃ d, default_config = VDict d ∧
        unset (d !! "favorite1") ∧ unset (d !! "favorite2")).
Proof.
  rewrite load_config_run. repeat split.
  - eauto.
  - intros [-> | [-> | (s & -> & ->)]]; reflexivity.
  - intros He ->. rewrite He. reflexivity.
  - intros s v -> ->. reflexivity.
  - exists (<["favorite1" := VNone]> (<["favorite2" := VNone]> ∅)).
    split; [reflexivity | split; right; reflexivity].
Qed.

Lemma write_file_same w : write_file (config_file w) w = w.
Proof. destruct w; reflexivity. Qed.

Lemma write_file_twice f g w : write_file f (write_file g w) = write_file f w.
Proof. reflexivity. Qed.

Lemma open_write_run m :
  open_write m =
    (Ok tt, mkMachine (self m) (write_file (Content "") (os m))) ∨
  open_write m = (Raise OSError, m).
Proof.
  destruct m as [a w].
  unfold open_write, bind, get_os, set_config_file, put_os, raise; cbn.
  destruct (config_file w), (fs_writable w); cbn; auto.
Qed.

Lemma write_text_run s m :
  ∃ r f,
    write_text s m = (r, mkMachine (self m) (write_file f (os m))) ∧
    (r = Ok tt → f = Content s).
Proof.
  destruct m as [a w]. unfold write_text.
  rewrite (bind_ok get_os _ (mkMachine a w) w (mkMachine a w) eq_refl).
  destruct (disk_quota w) as [k|].
  - destruct (k <? String.length s)%nat.
    + exists (Raise OSError), (Content (substring 0 k s)).
      split; [reflexivity | discriminate].
    + exists (Ok tt), (Content s). split; reflexivity.
  - exists (Ok tt), (Content s). split; reflexivity.
Qed.

(** The [try] block of [save_config] only touches the file, and when it
    completes the file holds the text of the value. *)
Lemma save_config_try_run p m :
  ∃ r f,
    save_config_try p m = (r, mkMachine (self m) (write_file f (os m))) ∧
    (r = Ok tt → f = Content (json_dumps p)).
Proof.
  unfold save_config_try.
  destruct (open_write_run m) as [Ho | Ho].
  - rewrite (bind_ok _ _ _ _ _ Ho).
    destruct (write_text_run (json_dumps p)
                (mkMachine (self m) (write_file (Content "") (os m))))
      as (r & f & E & Hr).
    exists r, f. split; [exact E | exact Hr].
  - rewrite (bind_raise _ _ _ _ _ Ho).
    exists (Raise OSError), (config_file (os m)).
    rewrite write_file_same, machine_eta. split; [reflexivity | discriminate].
Qed.

Lemma save_config_run p m :
  ∃ f, save_config p m = (Ok tt, mkMachine (self m) (write_file f (os m))).
Proof.
  destruct (save_config_try_run p m) as (r & f & E & _).
  exists f. unfold save_config, try_except. rewrite E.
  destruct r as [[]|e]; reflexivity.
Qed.
End store_facts.

Section favorites_facts.
Context `{JsonLib}.

Lemma load_after_write p m f :
  f = Content (json_dumps p) →
  json_loads (json_dumps p) = Some p →
  load_config (mkMachine (self m) (write_file f (os m)))
    = (Ok p, mkMachine (self m) (write_file f (os m))).
Proof.
  intros -> Hrt. rewrite load_config_run; cbn. rewrite Hrt. reflexivity.
Qed.

Lemma set_favorite_run slot X d m :
  _config (self m) = VDict d →
  set_favorite slot X m =
    save_config (VDict (<[favorite_key slot := X]> d))
      (snd (set_config (VDict (<[favorite_key slot := X]> d)) m)).
Proof.
  intros Hc. unfold set_favorite.
  rewrite (bind_ok get_self _ m (self m) m eq_refl), Hc.
  rewrite (bind_ok (dict_setitem (VDict d) (favorite_key slot) X) _ m
             (VDict (<[favorite_key slot := X]> d)) m eq_refl).
  step_ok. reflexivity.
Qed.

(** C8. When the [try] block of [save_config p] completes, and the JSON
    library reads back what it wrote for [p], a following [load_config]
    returns [p].  In particular, when [p] is the record that
    [set_favorite slot X] has just built and saved, the reloaded record
    holds [X] in that slot. *)
Theorem save_then_load (p : value) (m m1 : machine) :
  save_config_try p m = (Ok tt, m1) →
  json_loads (json_dumps p) = Some p →
  save_config p m = (Ok tt, m1) ∧
  load_config m1 = (Ok p, m1) ∧
  (∀ slot X d m0,
     _config (self m0) = VDict d →
     p = VDict (<[favorite_key slot := X]> d) →
     m = snd (set_config p m0) →
     set_favorite slot X m0 = (Ok tt, m1) ∧
     dict_get p (favorite_key slot) m1 = (Ok X, m1)).
Proof.
  intros Hs Hrt.
  assert (Hsave : save_config p m = (Ok tt, m1)).
  { unfold save_config. apply try_except_ok. exact Hs. }
  split; [exact Hsave | ]. split.
  - destruct (save_config_try_run p m) as (r & f & E & Hf).
    rewrite Hs in E. injection E as <- ->.
    apply load_after_write; [apply Hf; reflexivity | exact Hrt].
  - intros slot X d m0 Hc -> ->. split.
    + rewrite (set_favorite_run slot X d m0 Hc). exact Hsave.
    + unfold dict_get, ret. rewrite lookup_insert_eq. reflexivity.
Qed.

(** C10. On a preferences dict, [set_favorite slot X] returns normally and
    leaves in memory the same dict with [favorite{slot}] set to [X]: every
    other key keeps its value, so for slot 1 [favorite2] is untouched and
    for slot 2 [favorite1] is; the device list and the policy client are
    untouched as well.  This holds whether or not the save to disk
    worked. *)
Theorem set_favorite_frame (slot : Z) (X : value) (d : gmap string value)
    (m : machine) :
  _config (self m) = VDict d →
  slot = 1%Z ∨ slot = 2%Z →
  ∃ m' d',
    set_favorite slot X m = (Ok tt, m') ∧
    _config (self m') = VDict d' ∧
    d' !! favorite_key slot = Some X ∧
    (∀ k, k ≠ favorite_key slot → d' !! k = d !! k) ∧
    d' !! favorite_key (3 - slot) = d !! favorite_key (3 - slot) ∧
    _devices (self m') = _devices (self m) ∧
    policy_client (self m') = policy_client (self m).
Proof.
  intros Hc Hslot. rewrite (set_favorite_run slot X d m Hc).
  destruct (save_config_run (VDict (<[favorite_key slot := X]> d))
              (snd (set_config (VDict (<[favorite_key slot := X]> d)) m)))
    as [f E].
  eexists _, (<[favorite_key slot := X]> d). split; [exact E | ].
  cbn. repeat split.
  - apply lookup_insert_eq.
  - intros k Hk. apply lookup_insert_ne. congruence.
  - apply lookup_insert_ne. destruct Hslot as [-> | ->]; discriminate.
Qed.
End favorites_facts.

(** ** The flow filter *)

(** C5, as stated, does not hold: a device object that reports no flow at
    all is listed, so an entry of the result need not stem from a device
    whose flow is render. *)
Lemma flow_unreported_device_listed :
  ¬ (∀ (m : machine) (i : nat) (e : device),
       enumerated m !! i = Some e →
       ∃ devs dev,
         all_devices (os m) = Ok devs ∧ dev ∈ devs ∧
         dev_id dev = Some (id e) ∧
         state dev = Active ∧ flow dev = Some eRender).
Proof.
  intros Hclaim.
  destruct (Hclaim
              (sample_machine default_config
                 (sample_world [headset] None (fun _ _ => true)))
              0%nat (mkDevice "{0.0.0.00000000}.{hs}" "Headset") eq_refl)
    as (devs & dev & Hd & Hin & _ & _ & Hflow).
  cbn in Hd. injection Hd as <-.
  apply list_elem_of_singleton in Hin. subst dev.
  discriminate Hflow.
Qed.

(** C5, amended. Every entry of the enumeration result stems from a reported
    device that is active and whose flow is render or is not reported; and a
    reported device that is not active, or whose reported flow is capture or
    both, is excluded: the result is the one obtained without it. *)
Theorem enumerated_active_outputs (m : machine) (i : nat) (e : device)
    (l1 l2 : list AudioDevice) (dev : AudioDevice) :
  (enumerated m !! i = Some e →
     ∃ devs d,
       all_devices (os m) = Ok devs ∧ d ∈ devs ∧ dev_id d = Some (id e) ∧
       state d = Active ∧ (flow d = Some eRender ∨ flow d = None)) ∧
  (state dev ≠ Active ∨ flow dev = Some eCapture ∨ flow dev = Some eAll →
     enumerated (reporting (Ok (l1 ++ dev :: l2)%list) m) =
     enumerated (reporting (Ok (l1 ++ l2)%list) m)).
Proof.
  split.
  - intros Hi. destruct (enumerated_reported m i e Hi) as [devs Hd].
    destruct (enumerated_origin m devs Hd i e Hi)
      as (_ & _ & d & Hin & Hl & Hid & _).
    apply listed_sound in Hl as (Hs & Hf & _).
    exists devs, d. auto.
  - intros Hex. apply enumerated_without.
    destruct (listed dev) eqn:Hl; [ | reflexivity].
    apply listed_sound in Hl as (Hs & Hf & _).
    destruct Hex as [Hex | [Hex | Hex]]; [contradiction | | ];
      rewrite Hex in Hf; destruct Hf; discriminate.
Qed.

(** ** The reference JSON library reads back what it writes

    For every preferences record made of two slots, each a device id (any
    string) or unset, [MiniJson.loads] inverts [MiniJson.dumps]: the
    read-back assumption of the store's round trip is met by an actual
    reader and printer. *)

Module MiniJsonFacts.
Import MiniJson.

Lemma read_escape_char c tail fuel :
  read_string (S fuel) (escape_char c +:+ tail) =
    match read_string fuel tail with
    | Some (r, rest) => Some (String c r, rest)
    | None => None
    end.
Proof.
  destruct c as [[] [] [] [] [] [] [] []]; reflexivity.
Qed.

Lemma append_assoc (a b c : string) : (a +:+ b) +:+ c = a +:+ (b +:+ c).
Proof.
  induction a as [|x a IH]; [reflexivity | ].
  transitivity (String x ((a +:+ b) +:+ c)); [reflexivity | ].
  rewrite IH. reflexivity.
Qed.

Lemma read_string_escape s : ∀ rest fuel,
  (String.length s < fuel)%nat →
  read_string fuel (escape s +:+ String dquote rest) = Some (s, rest).
Proof.
  induction s as [|c s IH]; intros rest fuel Hf.
  - destruct fuel as [|fuel]; [lia | ]. reflexivity.
  - destruct fuel as [|fuel]; [lia | ].
    cbn [escape]. rewrite append_assoc, read_escape_char.
    rewrite IH by (cbn in Hf; lia). reflexivity.
Qed.

Lemma length_append (a b : string) :
  String.length (a +:+ b) = (String.length a + String.length b)%nat.
Proof.
  induction a as [|x a IH]; [reflexivity | ].
  change (S (String.length (a +:+ b)) = S (String.length a + String.length b)).
  rewrite IH. reflexivity.
Qed.

Lemma escape_length s : (String.length s <= String.length (escape s))%nat.
Proof.
  induction s as [|c s IH]; [reflexivity | ].
  cbn [escape]. rewrite length_append.
  assert (1 <= String.length (escape_char c))%nat.
  { destruct c as [[] [] [] [] [] [] [] []]; vm_compute; lia. }
  cbn [String.length]. lia.
Qed.

Lemma entries_favorites (x y : string) :
  map_to_list (<["favorite1" := x]> (<["favorite2" := y]> (∅ : gmap string string)))
  = [("favorite1", x); ("favorite2", y)].
Proof. vm_compute. reflexivity. Qed.

Lemma dumps_favorites a b :
  dumps (favorites a b) =
    block "{" "}" 0
      [quote "favorite1" +:+ ": " +:+ dumps_at 1 a;
       quote "favorite2" +:+ ": " +:+ dumps_at 1 b].
Proof.
  unfold dumps, favorites.
  change (dumps_at 0 (VDict ?d))
    with (block "{" "}" 0
            (map (fun kv : string * string => quote kv.1 +:+ ": " +:+ kv.2)
               (map_to_list (dumps_at 1 <$> d)))).
  rewrite !fmap_insert, fmap_empty, entries_favorites. reflexivity.
Qed.

(** The text of a slot value, preceded by the blank that follows the colon,
    reads back as that value and leaves what comes after it. *)
Lemma read_slot_value o rest fuel :
  read_value (S fuel) (String " " (dumps_at 1 (slot_value o) +:+ rest))
  = Some (slot_value o, rest).
Proof.
  destruct o as [i|]; [ | reflexivity].
  cbn [slot_value dumps_at]. unfold quote.
  change (String dquote (escape i +:+ String dquote "") +:+ rest)
    with (String dquote ((escape i +:+ String dquote "") +:+ rest)).
  rewrite append_assoc.
  change (String dquote "" +:+ rest) with (String dquote rest).
  transitivity
    (match read_string (S (String.length (escape i +:+ String dquote rest)))
             (escape i +:+ String dquote rest) with
     | Some (x, r) => Some (VStr x, r)
     | None => None
     end); [reflexivity | ].
  rewrite read_string_escape; [reflexivity | ].
  rewrite length_append. pose proof (escape_length i). lia.
Qed.

Lemma read_first_member f tail v rest :
  read_value f tail = Some (v, String "," rest) →
  read_members (S f)
    (String newline ("  " +:+ quote "favorite1" +:+ String ":" tail))
  = match read_members f rest with
    | Some (d, rest') =>
        Some (match d !! "favorite1" with
              | Some _ => d
              | None => <["favorite1" := v]> d
              end, rest')
    | None => None
    end.
Proof.
  intros Hv.
  transitivity
    (match read_value f tail with
     | Some (v, rest2) =>
         match skip_ws rest2 with
         | String "," rest3 =>
             match read_members f rest3 with
             | Some (d, rest4) =>
                 Some (match d !! "favorite1" with
                       | Some _ => d
                       | None => <["favorite1" := v]> d
                       end, rest4)
             | None => None
             end
         | String "}" rest3 => Some ({["favorite1" := v]}, rest3)
         | _ => None
         end
     | None => None
     end); [reflexivity | ].
  rewrite Hv. reflexivity.
Qed.

Lemma read_last_member f tail v rest :
  read_value f tail = Some (v, String newline (String "}" rest)) →
  read_members (S f)
    (String newline ("  " +:+ quote "favorite2" +:+ String ":" tail))
  = Some ({["favorite2" := v]}, rest).
Proof.
  intros Hv.
  transitivity
    (match read_value f tail with
     | Some (v, rest2) =>
         match skip_ws rest2 with
         | String "," rest3 =>
             match read_members f rest3 with
             | Some (d, rest4) =>
                 Some (match d !! "favorite2" with
                       | Some _ => d
                       | None => <["favorite2" := v]> d
                       end, rest4)
             | None => None
             end
         | String "}" rest3 => Some ({["favorite2" := v]}, rest3)
         | _ => None
         end
     | None => None
     end); [reflexivity | ].
  rewrite Hv. reflexivity.
Qed.

Lemma favorites_text a b :
  dumps (favorites a b) =
    String "{" (String newline ("  " +:+ quote "favorite1" +:+ String ":"
      (String " " (dumps_at 1 a +:+ String ","
        (String newline ("  " +:+ quote "favorite2" +:+ String ":"
          (String " " (dumps_at 1 b +:+ String newline (String "}" ""))))))))).
Proof.
  rewrite dumps_favorites. unfold block. cbn [map join indent].
  rewrite !append_assoc. reflexivity.
Qed.

Lemma read_object f k tail :
  read_value (S f) (String "{" (String newline ("  " +:+ quote k +:+ tail)))
  = match read_members f (String newline ("  " +:+ quote k +:+ tail)) with
    | Some (d, rest) => Some (VDict d, rest)
    | None => None
    end.
Proof. reflexivity. Qed.

Lemma roundtrip_favorites (a b : option string) :
  loads (dumps (favorites (slot_value a) (slot_value b)))
  = Some (favorites (slot_value a) (slot_value b)).
Proof.
  rewrite favorites_text. unfold loads.
  set (t2 := String " " (dumps_at 1 (slot_value b) +:+
                String newline (String "}" ""))).
  set (m2 := "  " +:+ quote "favorite2" +:+ String ":" t2).
  set (t1 := String " " (dumps_at 1 (slot_value a) +:+
                String "," (String newline m2))).
  assert (H2 : ∀ f, read_members (S (S f)) (String newline m2)
                    = Some ({["favorite2" := slot_value b]}, "")).
  { intros f. apply read_last_member. apply read_slot_value. }
  assert (H1 : ∀ f,
    read_members (S (S (S f)))
      (String newline ("  " +:+ quote "favorite1" +:+ String ":" t1))
    = Some (<["favorite1" := slot_value a]> {["favorite2" := slot_value b]}, "")).
  { intros f. rewrite (read_first_member _ t1 (slot_value a) (String newline m2)).
    - rewrite H2. reflexivity.
    - apply read_slot_value. }
  rewrite read_object.
  set (F := String.length _).
  assert (HF : F = S (S (S (pred (pred (String.length
             (String newline ("  " +:+ quote "favorite1" +:+ String ":" t1))))))))
    by reflexivity.
  rewrite HF, H1. reflexivity.
Qed.
End MiniJsonFacts.

Lemma reference_save_then_load (a b : option string) (m m1 : machine) :
  save_config_try (favorites (slot_value a) (slot_value b)) m = (Ok tt, m1) →
  load_config m1 = (Ok (favorites (slot_value a) (slot_value b)), m1).
Proof.
  intros Hs.
  destruct (save_config_try_run (favorites (slot_value a) (slot_value b)) m)
    as (r & f & E & Hf).
  rewrite Hs in E. injection E as <- ->.
  apply load_after_write; [apply Hf; reflexivity | ].
  apply MiniJsonFacts.roundtrip_favorites.
Qed.

(** ** Boundaries of the favorite logic and of the store *)

(** An empty string in a slot counts as unset for the toggle: the guard
    tests truthiness. *)
Lemma toggle_favorites_empty_id_noop m d :
  _config (self m) = VDict d →
  d !! "favorite1" = Some (VStr "") ∨ d !! "favorite2" = Some (VStr "") →
  toggle_favorites m = (Ok tt, m).
Proof.
  intros Hc He. apply (toggle_favorites_falsy m d Hc).
  destruct He as [-> | ->]; cbn; auto.
Qed.

(** Text that the JSON reader accepts is returned as it is, whatever its
    shape. *)
Lemma load_config_accepted `{JsonLib} m s v :
  config_file (os m) = Content s → json_loads s = Some v →
  load_config m = (Ok v, m).
Proof. intros Hf Hv. rewrite load_config_run, Hf, Hv. reflexivity. Qed.

(** On a configuration that is not a dict the toggle raises. *)
Lemma toggle_favorites_not_dict m :
  (∀ d, _config (self m) ≠ VDict d) →
  toggle_favorites m = (Raise AttributeError, m).
Proof.
  intros Hn. unfold toggle_favorites.
  rewrite (bind_ok get_self _ m (self m) m eq_refl).
  apply bind_raise.
  destruct (_config (self m)) as [ | | | | | d]; try reflexivity.
  destruct (Hn d). reflexivity.
Qed.

(** C7, as stated, does not hold: the text of the file can be other than
    that of a preferences record, here a JSON array, and [load_config]
    still returns what the reader made of it instead of a record with both
    favorites unset.  The code returns [json.load(f)] unexamined; only an
    exception leads to the default. *)
Lemma load_config_keeps_foreign_json :
  ¬ (∀ (J : JsonLib) (m : machine) (s : string),
       config_file (os m) = Content s →
       (∀ d, json_loads s ≠ Some (VDict d)) →
       ∃ d, fst (load_config m) = Ok (VDict d) ∧
            unset (d !! "favorite1") ∧ unset (d !! "favorite2")).
Proof.
  intros Hall.
  destruct (Hall mini_json
              (sample_machine VNone
                 (write_file (Content "[]")
                    (sample_world [] None (fun _ _ => true))))
              "[]" eq_refl) as (d & Hd & _).
  - intros d Hd. vm_compute in Hd. discriminate Hd.
  - vm_compute in Hd. discriminate Hd.
Qed.

Example load_config_array :
  load_config
    (sample_machine VNone
       (write_file (Content "[]") (sample_world [] None (fun _ _ => true))))
  = (Ok (VList []),
     sample_machine VNone
       (write_file (Content "[]") (sample_world [] None (fun _ _ => true)))).
Proof. reflexivity. Qed.

(** The four cases of the toggle with favorites [A] and [B], as the calls
    that reach the system. *)
Example toggle_from_first :
  endpoint_calls (os (snd (toggle_favorites
    (sample_machine (favorites (VStr "A") (VStr "B"))
       (sample_world [] (Some "A") (fun _ _ => true))))))
  = [(VStr "B", 0%nat); (VStr "B", 1%nat); (VStr "B", 2%nat)].
Proof. vm_compute. reflexivity. Qed.

Example toggle_from_second :
  endpoint_calls (os (snd (toggle_favorites
    (sample_machine (favorites (VStr "A") (VStr "B"))
       (sample_world [] (Some "B") (fun _ _ => true))))))
  = [(VStr "A", 0%nat); (VStr "A", 1%nat); (VStr "A", 2%nat)].
Proof. vm_compute. reflexivity. Qed.

Example toggle_from_third :
  endpoint_calls (os (snd (toggle_favorites
    (sample_machine (favorites (VStr "A") (VStr "B"))
       (sample_world [] (Some "C") (fun _ _ => true))))))
  = [(VStr "A", 0%nat); (VStr "A", 1%nat); (VStr "A", 2%nat)].
Proof. vm_compute. reflexivity. Qed.

Example toggle_from_none :
  endpoint_calls (os (snd (toggle_favorites
    (sample_machine (favorites (VStr "A") (VStr "B"))
       (sample_world [] None (fun _ _ => true))))))
  = [(VStr "A", 0%nat); (VStr "A", 1%nat); (VStr "A", 2%nat)].
Proof. vm_compute. reflexivity. Qed.

Example toggle_twice_returns :
  render_default (os (snd (toggle_favorites (snd (toggle_favorites
    (sample_machine (favorites (VStr "A") (VStr "B"))
       (sample_world [] (Some "A") (fun _ _ => true)))))))) 0%nat
  = Some "A".
Proof. vm_compute. reflexivity. Qed.

Example enumerate_sample :
  enumerated
    (sample_machine default_config
       (sample_world
          [speakers; usb_microphone; stereo_mix; unplugged_hdmi; nameless;
           headset]
          None (fun _ _ => true)))
  = [mkDevice "{0.0.0.00000000}.{spk}" "Speakers (Realtek Audio)";
     mkDevice "{0.0.0.00000000}.{anon}" "Device 2";
     mkDevice "{0.0.0.00000000}.{hs}" "Headset"].
Proof. vm_compute. reflexivity. Qed.

(** ** The theorems at work on the sample machines *)

Lemma toggle_favorites_policy_witness :
  toggle_favorites
    (sample_machine (favorites (VStr "A") (VStr "B"))
       (sample_world [] (Some "C") (fun _ _ => true)))
  = set_default_device (VStr "A")
      (sample_machine (favorites (VStr "A") (VStr "B"))
         (sample_world [] (Some "C") (fun _ _ => true))).
Proof.
  refine (proj1 (toggle_favorites_policy _
           (<["favorite1" := VStr "A"]> (<["favorite2" := VStr "B"]> ∅))
           "A" "B" (Some "C") _ _ _ _ _ _)).
  - reflexivity.
  - vm_compute. reflexivity.
  - discriminate.
  - vm_compute. reflexivity.
  - discriminate.
  - reflexivity.
Defined.

Lemma toggle_favorites_unset_noop_witness :
  toggle_favorites
    (sample_machine (favorites (VStr "A") VNone)
       (sample_world [] (Some "A") (fun _ _ => true)))
  = (Ok tt,
     sample_machine (favorites (VStr "A") VNone)
       (sample_world [] (Some "A") (fun _ _ => true))).
Proof.
  apply (toggle_favorites_unset_noop _
           (<["favorite1" := VStr "A"]> (<["favorite2" := VNone]> ∅))).
  - reflexivity.
  - right. right. vm_compute. reflexivity.
Defined.

Lemma enumerated_entries_named_witness :
  enumerated
    (sample_machine default_config
       (sample_world [speakers; usb_microphone; nameless; headset]
          None (fun _ _ => true))) !! 1%nat
  = Some (mkDevice "{0.0.0.00000000}.{anon}" "Device 2") ∧
  id (mkDevice "{0.0.0.00000000}.{anon}" "Device 2") ≠ "" ∧
  name (mkDevice "{0.0.0.00000000}.{anon}" "Device 2") ≠ "".
Proof.
  assert (Hi : enumerated
                 (sample_machine default_config
                    (sample_world [speakers; usb_microphone; nameless; headset]
                       None (fun _ _ => true))) !! 1%nat
               = Some (mkDevice "{0.0.0.00000000}.{anon}" "Device 2"))
    by (vm_compute; reflexivity).
  destruct (enumerated_entries_named _ _ _ Hi) as (Hid & Hname & _).
  split; [exact Hi | split; assumption].
Defined.

Lemma blacklisted_device_excluded_witness :
  enumerated
    (reporting (Ok [speakers; usb_microphone; nameless])
       (sample_machine default_config
          (sample_world [] None (fun _ _ => true))))
  = enumerated
      (reporting (Ok [speakers; nameless])
         (sample_machine default_config
            (sample_world [] None (fun _ _ => true)))).
Proof.
  refine (proj1 (blacklisted_device_excluded _ [speakers] [nameless]
                   usb_microphone "USB MICROPHONE" _ _)).
  - reflexivity.
  - exists "Mic". split.
    + unfold skip_patterns. apply list_elem_of_In. simpl. tauto.
    + vm_compute. reflexivity.
Defined.

Lemma enumerated_active_outputs_witness :
  (∃ devs d,
     Ok [speakers; stereo_mix; headset] = Ok devs ∧ d ∈ devs ∧
     dev_id d = Some "{0.0.0.00000000}.{hs}" ∧
     state d = Active ∧ (flow d = Some eRender ∨ flow d = None)) ∧
  enumerated
    (reporting (Ok [speakers; stereo_mix; headset])
       (sample_machine default_config
          (sample_world [speakers; stereo_mix; headset] None
             (fun _ _ => true))))
  = enumerated
      (reporting (Ok [speakers; headset])
         (sample_machine default_config
            (sample_world [speakers; stereo_mix; headset] None
               (fun _ _ => true)))).
Proof.
  destruct (enumerated_active_outputs
              (sample_machine default_config
                 (sample_world [speakers; stereo_mix; headset] None
                    (fun _ _ => true)))
              1%nat (mkDevice "{0.0.0.00000000}.{hs}" "Headset")
              [speakers] [headset] stereo_mix) as [Hin Hout].
  split.
  - apply Hin. vm_compute. reflexivity.
  - apply Hout. right. left. reflexivity.
Defined.

Lemma refresh_devices_failure_empty_witness :
  enumerated
    (mkMachine
       (mkAudioSwitcher None [mkDevice "stale" "Stale entry"] default_config)
       (mkWorld Missing true None (Raise COMError) (fun _ => None) true
          (fun _ _ => true) []))
  = [].
Proof.
  apply (refresh_devices_failure_empty _ COMError). reflexivity.
Defined.

Lemma load_config_resilient_witness :
  load_config
    (sample_machine VNone
       (write_file (Content "") (sample_world [] None (fun _ _ => true))))
  = (Ok default_config,
     sample_machine VNone
       (write_file (Content "") (sample_world [] None (fun _ _ => true)))).
Proof.
  destruct (load_config_resilient
              (sample_machine VNone
                 (write_file (Content "")
                    (sample_world [] None (fun _ _ => true)))))
    as (_ & _ & Hempty & _).
  apply Hempty; reflexivity.
Defined.

Lemma save_then_load_witness :
  load_config
    (sample_machine (favorites (VStr "{0.0.0.00000000}.{spk}") VNone)
       (write_file
          (Content (json_dumps (favorites (VStr "{0.0.0.00000000}.{spk}") VNone)))
          (sample_world [] None (fun _ _ => true))))
  = (Ok (favorites (VStr "{0.0.0.00000000}.{spk}") VNone),
     sample_machine (favorites (VStr "{0.0.0.00000000}.{spk}") VNone)
       (write_file
          (Content (json_dumps (favorites (VStr "{0.0.0.00000000}.{spk}") VNone)))
          (sample_world [] None (fun _ _ => true)))).
Proof.
  destruct (save_then_load
              (favorites (VStr "{0.0.0.00000000}.{spk}") VNone)
              (sample_machine (favorites (VStr "{0.0.0.00000000}.{spk}") VNone)
                 (sample_world [] None (fun _ _ => true)))
              (sample_machine (favorites (VStr "{0.0.0.00000000}.{spk}") VNone)
                 (write_file
                    (Content (json_dumps
                       (favorites (VStr "{0.0.0.00000000}.{spk}") VNone)))
                    (sample_world [] None (fun _ _ => true)))))
    as (_ & Hload & _).
  - reflexivity.
  - vm_compute. reflexivity.
  - exact Hload.
Defined.

Lemma set_default_device_all_roles_witness :
  ∃ s w,
    set_default_device (VStr "A")
      (sample_machine default_config
         (sample_world [] None (fun _ role => negb (Nat.eqb role 0))))
    = (Ok tt, mkMachine s w) ∧
    endpoint_calls w = [(VStr "A", 0%nat); (VStr "A", 1%nat); (VStr "A", 2%nat)].
Proof.
  destruct (set_default_device_all_roles (VStr "A")
              (sample_machine default_config
                 (sample_world [] None (fun _ role => negb (Nat.eqb role 0)))))
    as (s & w & E & _ & _ & Hcalls & _).
  exists s, w. split; [exact E | ].
  apply Hcalls. discriminate.
Defined.

Lemma set_favorite_frame_witness :
  ∃ m' d',
    set_favorite 1 (VStr "X")
      (sample_machine (favorites VNone (VStr "B"))
         (sample_world [] None (fun _ _ => true)))
    = (Ok tt, m') ∧
    _config (self m') = VDict d' ∧
    d' !! "favorite1" = Some (VStr "X") ∧
    d' !! "favorite2" = Some (VStr "B").
Proof.
  destruct (set_favorite_frame 1 (VStr "X")
              (<["favorite1" := VNone]> (<["favorite2" := VStr "B"]> ∅))
              (sample_machine (favorites VNone (VStr "B"))
                 (sample_world [] None (fun _ _ => true))))
    as (m' & d' & E & Hc & Hslot & _ & Hother & _).
  - reflexivity.
  - left. reflexivity.
  - exists m', d'. split; [exact E | split; [exact Hc | split]].
    + exact Hslot.
    + etransitivity; [exact Hother | vm_compute; reflexivity].
Defined.

(** * Further properties of the module *)

(** ** Endpoint controller: what a call leaves behind *)

Lemma guarded_call_exact p device_id role m :
  try_except (SetDefaultEndpoint p device_id role) (ret tt) m
  = (Ok tt, mkMachine (self m) (after_call device_id role (os m))).
Proof.
  destruct m as [s w]. unfold after_call.
  destruct device_id as [ | b | z | str | l | d ]; try reflexivity.
  unfold try_except, SetDefaultEndpoint, bind, get_os, put_os, raise, ret; cbn.
  destruct (endpoint_accepts w str role); reflexivity.
Qed.

Lemma set_default_endpoint_exact p device_id m :
  set_default_endpoint (mkPolicyConfigClient (Some p)) device_id m
  = (Ok tt,
     mkMachine (self m)
       (after_call device_id 2 (after_call device_id 1
          (after_call device_id 0 (os m))))).
Proof.
  unfold set_default_endpoint, roles; cbn [_policy_config seq for_each].
  rewrite (bind_ok _ _ _ _ _ (guarded_call_exact p device_id 0 m)).
  rewrite (bind_ok _ _ _ _ _ (guarded_call_exact p device_id 1 _)).
  rewrite (bind_ok _ _ _ _ _ (guarded_call_exact p device_id 2 _)).
  reflexivity.
Qed.

Lemma set_default_device_exact device_id m :
  set_default_device device_id m = (Ok tt, after_set_default device_id m).
Proof.
  destruct m as [[pc ds cfg] w]. unfold after_set_default, policy_in_use; cbn.
  destruct pc as [[[p|]]|].
  - exact (set_default_endpoint_exact p device_id _).
  - reflexivity.
  - destruct (policy_available w) eqn:Hp.
    + set (m0 := mkMachine (mkAudioSwitcher None ds cfg) w).
      unfold set_default_device, bind, get_self; cbn.
      fold m0. rewrite (init_available m0 Hp). cbn.
      exact (set_default_endpoint_exact ComPointer device_id
               (mkMachine (mkAudioSwitcher
                  (Some (mkPolicyConfigClient (Some ComPointer))) ds cfg) w)).
    + set (m0 := mkMachine (mkAudioSwitcher None ds cfg) w).
      unfold set_default_device, bind, get_self; cbn.
      fold m0. rewrite (init_unavailable m0 Hp). reflexivity.
Qed.

Lemma after_call_accepts device_id role w :
  endpoint_accepts (after_call device_id role w) = endpoint_accepts w.
Proof.
  unfold after_call. destruct device_id; try reflexivity.
  destruct (endpoint_accepts w s role); reflexivity.
Qed.

Lemma after_call_default device_id role w r :
  render_default (after_call device_id role w) r =
    match device_id with
    | VStr s =>
        if Nat.eqb r role && endpoint_accepts w s role then Some s
        else render_default w r
    | _ => render_default w r
    end.
Proof.
  unfold after_call. destruct device_id; try reflexivity.
  destruct (endpoint_accepts w s role); cbn.
  - destruct (Nat.eqb r role); reflexivity.
  - rewrite andb_false_r. reflexivity.
Qed.

Lemma after_call_files device_id role w :
  config_file (after_call device_id role w) = config_file w ∧
  all_devices (after_call device_id role w) = all_devices w ∧
  policy_available (after_call device_id role w) = policy_available w.
Proof.
  unfold after_call. destruct device_id; try (cbn; auto).
  destruct (endpoint_accepts w s role); cbn; auto.
Qed.

Lemma after_call_calls device_id role w :
  endpoint_calls (after_call device_id role w)
  = (endpoint_calls w ++ [(device_id, role)])%list.
Proof.
  unfold after_call. destruct device_id; try reflexivity.
  destruct (endpoint_accepts w s role); reflexivity.
Qed.

Lemma three_calls_default device_id w r :
  render_default
    (after_call device_id 2 (after_call device_id 1 (after_call device_id 0 w)))
    r =
  match device_id with
  | VStr s =>
      if (r <? 3)%nat && endpoint_accepts w s r then Some s
      else render_default w r
  | _ => render_default w r
  end.
Proof.
  rewrite !after_call_default, !after_call_accepts.
  destruct device_id; try reflexivity.
  destruct r as [|[|[|r]]]; cbn.
  - destruct (endpoint_accepts w s 0); reflexivity.
  - destruct (endpoint_accepts w s 1); reflexivity.
  - destruct (endpoint_accepts w s 2); reflexivity.
  - reflexivity.
Qed.

Lemma three_calls_accepts device_id w :
  endpoint_accepts
    (after_call device_id 2 (after_call device_id 1 (after_call device_id 0 w)))
  = endpoint_accepts w.
Proof. rewrite !after_call_accepts. reflexivity. Qed.

Lemma after_set_default_policy device_id m w :
  policy_in_use (mkMachine (self (after_set_default device_id m)) w)
  = policy_in_use m.
Proof. reflexivity. Qed.

Lemma after_set_default_accepts device_id m :
  endpoint_accepts (os (after_set_default device_id m))
  = endpoint_accepts (os m).
Proof.
  unfold after_set_default; cbn.
  destruct (policy_in_use m); [apply three_calls_accepts | reflexivity].
Qed.

Lemma after_set_default_default device_id m r :
  render_default (os (after_set_default device_id m)) r =
    match policy_in_use m, device_id with
    | Some _, VStr s =>
        if (r <? 3)%nat && endpoint_accepts (os m) s r then Some s
        else render_default (os m) r
    | _, _ => render_default (os m) r
    end.
Proof.
  unfold after_set_default; cbn.
  destruct (policy_in_use m).
  - rewrite three_calls_default. destruct device_id; reflexivity.
  - reflexivity.
Qed.

(** X1. With a policy interface at hand, [set_default_device] on a string
    id moves the default of each of the roles 0, 1, 2 that the system
    accepts and leaves the default of a refused role, and of any other role,
    as it was; an id that is not a string moves nothing. *)
Theorem set_default_device_moves_accepted_roles (device_id : value)
    (m : machine) (r : nat) :
  policy_in_use m ≠ None →
  render_default (os (snd (set_default_device device_id m))) r =
    match device_id with
    | VStr s =>
        if (r <? 3)%nat && endpoint_accepts (os m) s r then Some s
        else render_default (os m) r
    | _ => render_default (os m) r
    end.
Proof.
  intros Hp. rewrite set_default_device_exact; cbn [snd].
  rewrite after_set_default_default.
  destruct (policy_in_use m); [ | congruence].
  destruct device_id; reflexivity.
Qed.

(** X2. [set_default_device] always leaves a policy client in place, and the
    choice made at the first call is kept: whatever the system looks like
    later, the same interface (or the same absence of one) is used, so after
    a failed creation every later call leaves the system untouched, even if
    the interface has become available. *)
Theorem set_default_device_keeps_first_choice (device_id device_id' : value)
    (m : machine) (w' : world) :
  let m1 := snd (set_default_device device_id m) in
  policy_client (self m1) ≠ None ∧
  policy_in_use (mkMachine (self m1) w') = policy_in_use m ∧
  (policy_in_use m = None →
     os (snd (set_default_device device_id' (mkMachine (self m1) w'))) = w').
Proof.
  rewrite set_default_device_exact; cbn [snd]. split; [discriminate | ].
  split; [reflexivity | ].
  intros Hn. rewrite set_default_device_exact; cbn [snd].
  unfold after_set_default at 1. cbn [os].
  rewrite after_set_default_policy, Hn. reflexivity.
Qed.

(** ** Favorite toggle: what a click leaves behind *)

Lemma toggle_favorites_exact m d :
  _config (self m) = VDict d →
  toggle_favorites m =
    if negb (truthy (default VNone (d !! "favorite1"))) ||
       negb (truthy (default VNone (d !! "favorite2")))
    then (Ok tt, m)
    else
      (Ok tt,
       after_set_default
         (if py_eq_id (render_default (os m) 0)
               (default VNone (d !! "favorite1"))
          then default VNone (d !! "favorite2")
          else default VNone (d !! "favorite1")) m).
Proof.
  intros Hc. unfold toggle_favorites.
  rewrite (bind_ok get_self _ m (self m) m eq_refl), Hc.
  rewrite (bind_ok (dict_get (VDict d) "favorite1") _ m
             (default VNone (d !! "favorite1")) m eq_refl).
  rewrite (bind_ok (dict_get (VDict d) "favorite2") _ m
             (default VNone (d !! "favorite2")) m eq_refl).
  destruct (negb (truthy (default VNone (d !! "favorite1"))) ||
            negb (truthy (default VNone (d !! "favorite2")))); [reflexivity | ].
  rewrite (bind_ok get_default_device_id _ m _ m (get_default_device_id_run m)).
  destruct (py_eq_id (render_default (os m) 0)
              (default VNone (d !! "favorite1")));
    apply set_default_device_exact.
Qed.

Lemma toggle_favorites_set m d a b :
  _config (self m) = VDict d →
  d !! "favorite1" = Some (VStr a) → a ≠ "" →
  d !! "favorite2" = Some (VStr b) → b ≠ "" →
  toggle_favorites m =
    (Ok tt,
     after_set_default
       (VStr (if decide (render_default (os m) 0 = Some a) then b else a)) m).
Proof.
  intros Hc H1 Ha H2 Hb. rewrite (toggle_favorites_exact m d Hc), H1, H2.
  change (default VNone (Some (VStr a))) with (VStr a).
  change (default VNone (Some (VStr b))) with (VStr b).
  rewrite (truthy_id a Ha), (truthy_id b Hb); cbn [negb orb].
  rewrite py_eq_id_str.
  destruct (decide (render_default (os m) 0 = Some a)) as [Heq|Hne].
  - rewrite bool_decide_eq_true_2; [reflexivity | assumption].
  - rewrite bool_decide_eq_false_2; [reflexivity | assumption].
Qed.

Lemma toggle_favorites_keeps_state m d :
  _config (self m) = VDict d →
  ∃ m1, toggle_favorites m = (Ok tt, m1) ∧ _config (self m1) = VDict d.
Proof.
  intros Hc. rewrite (toggle_favorites_exact m d Hc).
  destruct (negb (truthy (default VNone (d !! "favorite1"))) ||
            negb (truthy (default VNone (d !! "favorite2")))).
  - exists m. auto.
  - eexists. split; [reflexivity | exact Hc].
Qed.

(** X3. On a dict configuration the toggle never raises and never touches
    the preferences, the device list, the preferences file or what the
    system reports as devices: all it can change is the policy client and
    the system's default endpoints and call record. *)
Theorem toggle_favorites_keeps_preferences (m : machine)
    (d : gmap string value) :
  _config (self m) = VDict d →
  ∃ s w,
    toggle_favorites m = (Ok tt, mkMachine s w) ∧
    _config s = VDict d ∧
    _devices s = _devices (self m) ∧
    config_file w = config_file (os m) ∧
    all_devices w = all_devices (os m).
Proof.
  intros Hc. rewrite (toggle_favorites_exact m d Hc).
  destruct (negb (truthy (default VNone (d !! "favorite1"))) ||
            negb (truthy (default VNone (d !! "favorite2")))).
  - exists (self m), (os m). rewrite machine_eta. auto.
  - eexists _, _. split; [reflexivity | ]. cbn.
    split; [exact Hc | split; [reflexivity | ]].
    destruct (policy_in_use m); [ | auto].
    set (t := if py_eq_id _ _ then _ else _).
    destruct (after_call_files t 2 (after_call t 1 (after_call t 0 (os m))))
      as (F2 & D2 & _).
    destruct (after_call_files t 1 (after_call t 0 (os m))) as (F1 & D1 & _).
    destruct (after_call_files t 0 (os m)) as (F0 & D0 & _).
    split; congruence.
Qed.

(** The standing conditions of a working toggle: a dict with both favorites
    set, an interface at hand, and a system that accepts both favorites for
    role 0, the role whose default the toggle reads. *)
Lemma toggle_step m d a b :
  _config (self m) = VDict d →
  d !! "favorite1" = Some (VStr a) → a ≠ "" →
  d !! "favorite2" = Some (VStr b) → b ≠ "" →
  policy_in_use m ≠ None →
  endpoint_accepts (os m) a 0 = true →
  endpoint_accepts (os m) b 0 = true →
  let m1 := snd (toggle_favorites m) in
  render_default (os m1) 0 =
    Some (if decide (render_default (os m) 0 = Some a) then b else a) ∧
  _config (self m1) = VDict d ∧
  policy_in_use m1 ≠ None ∧
  endpoint_accepts (os m1) = endpoint_accepts (os m).
Proof.
  intros Hc H1 Ha H2 Hb Hp Aa Ab.
  rewrite (toggle_favorites_set m d a b Hc H1 Ha H2 Hb); cbn [snd].
  split; [ | split; [exact Hc | split]].
  - rewrite after_set_default_default.
    destruct (policy_in_use m); [ | congruence].
    destruct (decide (render_default (os m) 0 = Some a)); cbn.
    + rewrite Ab. reflexivity.
    + rewrite Aa. reflexivity.
  - rewrite <- (machine_eta (after_set_default _ m)).
    rewrite after_set_default_policy. exact Hp.
  - apply after_set_default_accepts.
Qed.

(** X4. With both favorites set, an interface at hand and a system that
    accepts both for role 0, a click moves the role-0 default to
    [favorite2] when it was [favorite1] and to [favorite1] otherwise; and
    when the default was one of the two favorites, two clicks bring it
    back. *)
Theorem toggle_favorites_alternates (m : machine) (d : gmap string value)
    (a b : string) :
  _config (self m) = VDict d →
  d !! "favorite1" = Some (VStr a) → a ≠ "" →
  d !! "favorite2" = Some (VStr b) → b ≠ "" →
  policy_in_use m ≠ None →
  endpoint_accepts (os m) a 0 = true →
  endpoint_accepts (os m) b 0 = true →
  let m1 := snd (toggle_favorites m) in
  let m2 := snd (toggle_favorites m1) in
  render_default (os m1) 0 =
    Some (if decide (render_default (os m) 0 = Some a) then b else a) ∧
  (render_default (os m) 0 = Some a ∨ render_default (os m) 0 = Some b →
     render_default (os m2) 0 = render_default (os m) 0).
Proof.
  intros Hc H1 Ha H2 Hb Hp Aa Ab m1 m2.
  destruct (toggle_step m d a b Hc H1 Ha H2 Hb Hp Aa Ab)
    as (D1 & C1 & P1 & A1).
  fold m1 in D1, C1, P1, A1.
  assert (Aa1 : endpoint_accepts (os m1) a 0 = true) by (rewrite A1; exact Aa).
  assert (Ab1 : endpoint_accepts (os m1) b 0 = true) by (rewrite A1; exact Ab).
  destruct (toggle_step m1 d a b C1 H1 Ha H2 Hb P1 Aa1 Ab1) as (D2 & _).
  fold m2 in D2. split; [exact D1 | ].
  intros Hcur. rewrite D2, D1.
  destruct (decide (render_default (os m) 0 = Some a)) as [E | N].
  - rewrite E. destruct (decide (Some b = Some a)) as [E' | _]; congruence.
  - destruct Hcur as [E | E]; [contradiction | ].
    rewrite E. destruct (decide (Some a = Some a)); congruence.
Qed.

Lemma toggle_stuck_step m d a b :
  _config (self m) = VDict d →
  d !! "favorite1" = Some (VStr a) → a ≠ "" →
  d !! "favorite2" = Some (VStr b) → b ≠ "" →
  render_default (os m) 0 ≠ Some a →
  (∀ r, endpoint_accepts (os m) a r = false) →
  let m1 := snd (toggle_favorites m) in
  (∀ r, render_default (os m1) r = render_default (os m) r) ∧
  _config (self m1) = VDict d ∧
  endpoint_accepts (os m1) = endpoint_accepts (os m).
Proof.
  intros Hc H1 Ha H2 Hb Hcur Hr.
  rewrite (toggle_favorites_set m d a b Hc H1 Ha H2 Hb); cbn [snd].
  destruct (decide (render_default (os m) 0 = Some a)); [contradiction | ].
  split; [ | split; [exact Hc | apply after_set_default_accepts]].
  intros r. rewrite after_set_default_default.
  destruct (policy_in_use m); [ | reflexivity].
  rewrite Hr, andb_false_r. reflexivity.
Qed.

(** X5. When the system refuses [favorite1] for every role (a device that is
    gone, say) and the current default is not [favorite1], a click changes
    no default, and neither does any number of clicks: the toggle keeps
    asking for [favorite1] and never falls back on [favorite2]. *)
Theorem toggle_favorites_stuck_on_refused_first (m : machine)
    (d : gmap string value) (a b : string) (n : nat) (r : nat) :
  _config (self m) = VDict d →
  d !! "favorite1" = Some (VStr a) → a ≠ "" →
  d !! "favorite2" = Some (VStr b) → b ≠ "" →
  render_default (os m) 0 ≠ Some a →
  (∀ r, endpoint_accepts (os m) a r = false) →
  render_default (os (Nat.iter n (fun m => snd (toggle_favorites m)) m)) r
  = render_default (os m) r.
Proof.
  intros Hc H1 Ha H2 Hb Hcur Hr.
  assert (Hinv : ∀ k,
    let mk := Nat.iter k (fun m => snd (toggle_favorites m)) m in
    (∀ r, render_default (os mk) r = render_default (os m) r) ∧
    _config (self mk) = VDict d ∧
    endpoint_accepts (os mk) = endpoint_accepts (os m)).
  { induction k as [|k IH]; [cbn; auto | ].
    cbn [Nat.iter nat_rect] in *. destruct IH as (D & C & A).
    set (mk := Nat.iter k (fun m => snd (toggle_favorites m)) m) in *.
    destruct (toggle_stuck_step mk d a b C H1 Ha H2 Hb) as (D' & C' & A').
    - rewrite D. exact Hcur.
    - intros r'. rewrite A. apply Hr.
    - split; [ | split; [exact C' | etransitivity; [exact A' | exact A]]].
      intros r'. etransitivity; [apply D' | apply D]. }
  apply (Hinv n).
Qed.

(** ** Device enumerator: order, completeness, and what a refresh touches *)

Lemma listed_id dev :
  listed dev = true → ∃ i, dev_id dev = Some i ∧ i ≠ "".
Proof.
  unfold listed. intros Hl.
  apply andb_prop in Hl as [Hl _]. apply andb_prop in Hl as [Hl _].
  apply andb_prop in Hl as [_ Hid]. apply truthy_str_true. exact Hid.
Qed.

Lemma listed_complete dev :
  state dev = Active →
  (∃ i, dev_id dev = Some i ∧ i ≠ "") →
  flow dev = None ∨ flow dev = Some eRender →
  ¬ blacklisted (default "" (FriendlyName dev)) →
  listed dev = true.
Proof.
  intros Hs Hi Hf Hb. unfold listed.
  rewrite (proj2 (state_name_active dev) Hs).
  rewrite (proj2 (truthy_str_true (dev_id dev)) Hi).
  rewrite (proj2 (flow_skipped_false dev) Hf). cbn [andb negb].
  rewrite str_or_empty.
  destruct (name_skipped (default "" (FriendlyName dev))) eqn:Hn;
    [ | reflexivity].
  apply name_skipped_blacklisted in Hn. contradiction.
Qed.

Lemma refresh_fold_ids devs : ∀ acc,
  map Some (map id (fold_left refresh_step devs acc)) =
  (map Some (map id acc) ++ map dev_id (List.filter listed devs))%list.
Proof.
  induction devs as [|dev devs IH]; intros acc; cbn [fold_left List.filter].
  - rewrite app_nil_r. reflexivity.
  - rewrite IH, refresh_step_listed.
    destruct (listed dev) eqn:Hl; [ | reflexivity].
    destruct (listed_id dev Hl) as (i & Hi & _).
    rewrite !map_app, <- app_assoc. cbn [map id app]. rewrite Hi.
    reflexivity.
Qed.

(** X6. On a report whose display names are all ASCII text, the
    enumeration result lists exactly the reported devices that pass the
    tests, in the order of the report: its ids are the ids of the reported
    devices that are active, have a non-empty id, report no flow or the
    render flow, and bear no blacklisted name. *)
Theorem enumerated_ids_in_report_order (m : machine)
    (devs : list AudioDevice) :
  all_devices (os m) = Ok devs →
  forallb ascii_name devs = true →
  map Some (map id (enumerated m)) = map dev_id (List.filter listed devs) ∧
  ∀ dev, In dev devs →
    (listed dev = true ↔
     state dev = Active ∧ (∃ i, dev_id dev = Some i ∧ i ≠ "") ∧
     (flow dev = None ∨ flow dev = Some eRender) ∧
     ¬ blacklisted (default "" (FriendlyName dev))).
Proof.
  intros Hd _. split.
  - rewrite (enumerated_ok m devs Hd), refresh_fold_ids. reflexivity.
  - intros dev _. split.
    + intros Hl. destruct (listed_sound dev Hl) as (Hs & Hf & Hb).
      split; [exact Hs | split; [exact (listed_id dev Hl) | split]];
        [tauto | exact Hb].
    + intros (Hs & Hi & Hf & Hb). apply listed_complete; assumption.
Qed.

Lemma refresh_devices_run m :
  _refresh_devices m =
    (Ok tt,
     mkMachine
       (mkAudioSwitcher (policy_client (self m))
          match all_devices (os m) with
          | Ok devs => fold_left refresh_step devs []
          | Raise _ => []
          end
          (_config (self m)))
       (os m)).
Proof.
  destruct (all_devices (os m)) as [devs | e] eqn:Hd.
  - apply refresh_devices_ok, Hd.
  - apply (refresh_devices_raise m e), Hd.
Qed.

(** X7. [_refresh_devices] never raises, whatever the system does; it
    replaces the device list and touches nothing else, neither the
    preferences nor the policy client nor the system; its result does not
    depend on the list it replaces, so refreshing twice is refreshing
    once. *)
Theorem refresh_devices_only_replaces_list (m : machine) :
  ∃ ds,
    _refresh_devices m =
      (Ok tt,
       mkMachine (mkAudioSwitcher (policy_client (self m)) ds (_config (self m)))
         (os m)) ∧
    (∀ ds0,
       _refresh_devices
         (mkMachine
            (mkAudioSwitcher (policy_client (self m)) ds0 (_config (self m)))
            (os m))
       = _refresh_devices m) ∧
    _refresh_devices (snd (_refresh_devices m)) = _refresh_devices m.
Proof.
  eexists. split; [apply refresh_devices_run | split].
  - intros ds0. rewrite !refresh_devices_run. reflexivity.
  - rewrite !refresh_devices_run. reflexivity.
Qed.

(** ** Device names *)

Lemma find_name_some ds i n :
  find_name ds i = Some n ↔
  ∃ l1 e l2,
    ds = (l1 ++ e :: l2)%list ∧ id e = i ∧ name e = n ∧
    Forall (fun x => id x ≠ i) l1.
Proof.
  induction ds as [|dev ds IH]; cbn [find_name].
  - split; [discriminate | ].
    intros (l1 & e & l2 & Hl & _). destruct l1; discriminate.
  - destruct (String.eqb_spec (id dev) i) as [Heq | Hne].
    + split.
      * intros [= <-]. exists [], dev, ds. auto.
      * intros (l1 & e & l2 & Hl & Hi & Hn & Hf).
        destruct l1 as [|x l1]; cbn in Hl; injection Hl as -> ->.
        -- congruence.
        -- apply Forall_cons in Hf as [Hx _]. contradiction.
    + rewrite IH. split.
      * intros (l1 & e & l2 & -> & Hi & Hn & Hf).
        exists (dev :: l1), e, l2. repeat split; try assumption.
        apply Forall_cons. auto.
      * intros (l1 & e & l2 & Hl & Hi & Hn & Hf).
        destruct l1 as [|x l1]; cbn in Hl; injection Hl as -> ->.
        -- contradiction.
        -- apply Forall_cons in Hf as [_ Hf]. exists l1, e, l2. auto.
Qed.

Lemma find_name_none ds i :
  find_name ds i = None ↔ Forall (fun x => id x ≠ i) ds.
Proof.
  induction ds as [|dev ds IH]; cbn [find_name].
  - split; [constructor | reflexivity].
  - destruct (String.eqb_spec (id dev) i) as [Heq | Hne].
    + split; [discriminate | ].
      intros Hf. apply Forall_cons in Hf as [Hx _]. contradiction.
    + rewrite IH. split.
      * intros Hf. apply Forall_cons. auto.
      * intros Hf. apply Forall_cons in Hf as [_ Hf]. exact Hf.
Qed.

(** X8. [get_device_name] never raises and changes nothing; it returns the
    name of the first entry of the device list that has the id, and [None]
    exactly when no entry has it. *)
Theorem get_device_name_first_match (m : machine) (i : string) :
  (∃ r, get_device_name i m = (Ok r, m)) ∧
  (∀ n,
     get_device_name i m = (Ok (Some n), m) ↔
     ∃ l1 e l2,
       _devices (self m) = (l1 ++ e :: l2)%list ∧ id e = i ∧ name e = n ∧
       Forall (fun x => id x ≠ i) l1) ∧
  (get_device_name i m = (Ok None, m) ↔
   Forall (fun x => id x ≠ i) (_devices (self m))).
Proof.
  assert (Hrun : get_device_name i m = (Ok (find_name (_devices (self m)) i), m))
    by reflexivity.
  rewrite Hrun. split; [eauto | split].
  - intros n. rewrite <- find_name_some. split; [ | congruence].
    intros [= E]. exact E.
  - rewrite <- find_name_none. split; [ | congruence].
    intros [= E]. exact E.
Qed.

Lemma find_name_member ds e :
  e ∈ ds → ∃ e', e' ∈ ds ∧ id e' = id e ∧ find_name ds (id e) = Some (name e').
Proof.
  induction ds as [|dev ds IH]; intros He; [inversion He | ].
  cbn [find_name]. destruct (String.eqb_spec (id dev) (id e)) as [Heq | Hne].
  - exists dev. split; [left | auto].
  - apply elem_of_cons in He as [-> | He]; [contradiction | ].
    destruct (IH He) as (e' & He' & Hi & Hf). exists e'.
    split; [right; exact He' | auto].
Qed.

Lemma find_name_nodup ds e :
  NoDup (map id ds) → e ∈ ds → find_name ds (id e) = Some (name e).
Proof.
  induction ds as [|dev ds IH]; intros Hnd He; [inversion He | ].
  cbn [map] in Hnd. apply NoDup_cons in Hnd as [Hnot Hnd].
  cbn [find_name]. destruct (String.eqb_spec (id dev) (id e)) as [Heq | Hne].
  - apply elem_of_cons in He as [-> | He]; [reflexivity | ].
    destruct Hnot. rewrite Heq. apply list_elem_of_fmap. eauto.
  - apply elem_of_cons in He as [-> | He]; [contradiction | auto].
Qed.

(** X9. After a refresh every listed device can be looked up: the name
    found for the id of an entry is never empty, and when the ids of the
    result are pairwise distinct it is the entry's own name. *)
Theorem enumerated_names_resolve (m : machine) (k : nat) (e : device) :
  enumerated m !! k = Some e →
  ∃ n,
    get_device_name (id e) (snd (_refresh_devices m))
      = (Ok (Some n), snd (_refresh_devices m)) ∧
    n ≠ "" ∧
    (NoDup (map id (enumerated m)) → n = name e).
Proof.
  intros Hk.
  assert (He : e ∈ enumerated m) by (apply list_elem_of_lookup; eauto).
  destruct (find_name_member _ e He) as (e' & He' & Hi & Hf).
  exists (name e'). split; [ | split].
  - unfold get_device_name. step_ok. unfold ret. fold (enumerated m).
    rewrite Hf. reflexivity.
  - apply list_elem_of_lookup in He' as [j Hj].
    destruct (enumerated_reported m j e' Hj) as [devs Hd].
    destruct (enumerated_origin m devs Hd j e' Hj) as (_ & Hn & _). exact Hn.
  - intros Hnd. pose proof (find_name_nodup _ e Hnd He) as Hf'. congruence.
Qed.

(** ** Labels and check marks *)

Lemma find_name_by_str ds i : find_name_by ds (VStr i) = find_name ds i.
Proof. induction ds as [|dev ds IH]; cbn; [ | rewrite IH]; reflexivity. Qed.

Lemma find_name_by_none ds : find_name_by ds VNone = None.
Proof. induction ds as [|dev ds IH]; cbn; [ | rewrite IH]; reflexivity. Qed.

Lemma favorite_label_run m d slot :
  _config (self m) = VDict d →
  _get_favorite_label slot m =
    (Ok ("즐찾 [" +:+ pretty slot +:+ "] " +:+
         str_or (find_name_by (_devices (self m))
                   (default VNone (d !! favorite_key slot))) "(Not set)"),
     m).
Proof.
  intros Hc. unfold _get_favorite_label.
  rewrite (bind_ok get_self _ m (self m) m eq_refl), Hc.
  rewrite (bind_ok (dict_get (VDict d) (favorite_key slot)) _ m
             (default VNone (d !! favorite_key slot)) m eq_refl).
  reflexivity.
Qed.

(** X10. The label of a favorite slot never raises on a dict configuration
    and changes nothing.  It ends in [(Not set)] when the slot is unset and
    also when the stored id is not in the device list (a device that is
    gone); otherwise it ends in the name found for the id. *)
Theorem favorite_label_shows (m : machine) (d : gmap string value) (slot : Z) :
  _config (self m) = VDict d →
  (unset (d !! favorite_key slot) →
     _get_favorite_label slot m =
       (Ok ("즐찾 [" +:+ pretty slot +:+ "] (Not set)"), m)) ∧
  (∀ i, d !! favorite_key slot = Some (VStr i) →
     Forall (fun x => id x ≠ i) (_devices (self m)) →
     _get_favorite_label slot m =
       (Ok ("즐찾 [" +:+ pretty slot +:+ "] (Not set)"), m)) ∧
  (∀ i n, d !! favorite_key slot = Some (VStr i) →
     find_name (_devices (self m)) i = Some n → n ≠ "" →
     _get_favorite_label slot m =
       (Ok ("즐찾 [" +:+ pretty slot +:+ "] " +:+ n), m)).
Proof.
  intros Hc. rewrite (favorite_label_run m d slot Hc). repeat split.
  - intros [-> | ->]; cbn [default from_option Datatypes.id];
      rewrite find_name_by_none; reflexivity.
  - intros i -> Hf. change (default VNone (Some (VStr i))) with (VStr i).
    rewrite find_name_by_str, (proj2 (find_name_none _ i) Hf). reflexivity.
  - intros i n -> Hf Hn. change (default VNone (Some (VStr i))) with (VStr i).
    rewrite find_name_by_str, Hf. unfold str_or.
    rewrite (proj2 (truthy_str_true (Some n))) by eauto. reflexivity.
Qed.

Lemma favorite_key_inj slot slot' :
  favorite_key slot = favorite_key slot' → slot = slot'.
Proof.
  unfold favorite_key. intros Hk.
  apply (inj (String.app "favorite")) in Hk.
  apply (inj pretty) in Hk. exact Hk.
Qed.

Lemma is_default_run Y m :
  _is_default Y m = (Ok (bool_decide (render_default (os m) 0 = Some Y)), m).
Proof.
  unfold _is_default.
  rewrite (bind_ok get_default_device_id _ m _ m (get_default_device_id_run m)).
  unfold ret. rewrite py_eq_id_str. reflexivity.
Qed.

(** X11. The check mark of a device entry never raises and changes nothing.
    It is off when the default cannot be read; and once
    [set_default_device] has run for an id that the system accepts for
    role 0, with an interface at hand, it is on exactly for the entries
    with that id. *)
Theorem default_check_follows_selection (m : machine) (X Y : string) :
  (render_default (os m) 0 = None → _is_default Y m = (Ok false, m)) ∧
  (policy_in_use m ≠ None → endpoint_accepts (os m) X 0 = true →
     let m1 := snd (set_default_device (VStr X) m) in
     _is_default Y m1 = (Ok (bool_decide (X = Y)), m1)).
Proof.
  split.
  - intros Hn. rewrite is_default_run, Hn. reflexivity.
  - intros Hp Ha m1. rewrite is_default_run. subst m1.
    rewrite set_default_device_exact; cbn [snd].
    rewrite after_set_default_default.
    destruct (policy_in_use m); [ | congruence].
    rewrite Ha; cbn [Nat.ltb Nat.leb andb].
    destruct (decide (X = Y)) as [-> | Hne].
    + rewrite !bool_decide_eq_true_2; reflexivity.
    + rewrite !bool_decide_eq_false_2; [reflexivity | assumption | congruence].
Qed.

Section favorite_checks.
Context `{JsonLib}.

Lemma set_favorite_dict slot X d m :
  _config (self m) = VDict d →
  ∃ f,
    set_favorite slot X m =
      (Ok tt,
       mkMachine
         (mkAudioSwitcher (policy_client (self m)) (_devices (self m))
            (VDict (<[favorite_key slot := X]> d)))
         (write_file f (os m))).
Proof.
  intros Hc. rewrite (set_favorite_run slot X d m Hc).
  destruct (save_config_run (VDict (<[favorite_key slot := X]> d))
              (snd (set_config (VDict (<[favorite_key slot := X]> d)) m)))
    as [f E].
  exists f. exact E.
Qed.

Lemma is_favorite_run slot Y d m :
  _config (self m) = VDict d →
  _is_favorite slot Y m =
    (Ok (py_eq_id (Some Y) (default VNone (d !! favorite_key slot))), m).
Proof.
  intros Hc. unfold _is_favorite.
  rewrite (bind_ok get_self _ m (self m) m eq_refl), Hc. reflexivity.
Qed.

(** X12. After [set_favorite slot X] on a dict configuration, the check mark
    of that slot's submenu is on exactly for the entries with id [X], and
    the check marks of another slot read as before. *)
Theorem favorite_check_follows_assignment (m : machine)
    (d : gmap string value) (slot slot' : Z) (X Y : string) :
  _config (self m) = VDict d →
  let m1 := snd (set_favorite slot (VStr X) m) in
  _is_favorite slot Y m1 = (Ok (bool_decide (X = Y)), m1) ∧
  (slot' ≠ slot →
     fst (_is_favorite slot' Y m1) = fst (_is_favorite slot' Y m)).
Proof.
  intros Hc m1. destruct (set_favorite_dict slot (VStr X) d m Hc) as [f E].
  subst m1. rewrite E; cbn [snd]. split.
  - rewrite (is_favorite_run slot Y (<[favorite_key slot := VStr X]> d))
      by reflexivity.
    rewrite lookup_insert_eq.
    change (default VNone (Some (VStr X))) with (VStr X).
    cbn [py_eq_id].
    destruct (String.eqb_spec Y X) as [-> | Hne].
    + rewrite bool_decide_eq_true_2; reflexivity.
    + rewrite bool_decide_eq_false_2; [reflexivity | congruence].
  - intros Hs.
    rewrite (is_favorite_run slot' Y (<[favorite_key slot := VStr X]> d))
      by reflexivity.
    rewrite (is_favorite_run slot' Y d m Hc). cbn [fst].
    rewrite lookup_insert_ne; [reflexivity | ].
    intros Hk. apply favorite_key_inj in Hk. congruence.
Qed.

(** X13. Assignments compose as on a map: on a dict configuration, assigning
    a slot twice leaves in memory what the second assignment alone leaves,
    and assignments to different slots leave the same record in either
    order. *)
Theorem set_favorite_last_wins (m : machine) (d : gmap string value)
    (slot slot' : Z) (X Y : value) :
  _config (self m) = VDict d →
  _config (self (snd (set_favorite slot Y (snd (set_favorite slot X m)))))
  = _config (self (snd (set_favorite slot Y m))) ∧
  (slot ≠ slot' →
     _config (self (snd (set_favorite slot' Y (snd (set_favorite slot X m)))))
     = _config (self (snd (set_favorite slot X (snd (set_favorite slot' Y m)))))).
Proof.
  intros Hc.
  destruct (set_favorite_dict slot X d m Hc) as [f1 E1].
  destruct (set_favorite_dict slot Y d m Hc) as [f2 E2].
  destruct (set_favorite_dict slot' Y d m Hc) as [f3 E3].
  rewrite E1, E2, E3; cbn [snd]. split.
  - destruct (set_favorite_dict slot Y (<[favorite_key slot := X]> d)
                (mkMachine
                   (mkAudioSwitcher (policy_client (self m)) (_devices (self m))
                      (VDict (<[favorite_key slot := X]> d)))
                   (write_file f1 (os m))) eq_refl) as [f4 E4].
    rewrite E4; cbn. rewrite insert_insert_eq. reflexivity.
  - intros Hs.
    destruct (set_favorite_dict slot' Y (<[favorite_key slot := X]> d)
                (mkMachine
                   (mkAudioSwitcher (policy_client (self m)) (_devices (self m))
                      (VDict (<[favorite_key slot := X]> d)))
                   (write_file f1 (os m))) eq_refl) as [f4 E4].
    destruct (set_favorite_dict slot X (<[favorite_key slot' := Y]> d)
                (mkMachine
                   (mkAudioSwitcher (policy_client (self m)) (_devices (self m))
                      (VDict (<[favorite_key slot' := Y]> d)))
                   (write_file f3 (os m))) eq_refl) as [f5 E5].
    rewrite E4, E5; cbn. rewrite insert_insert_ne; [reflexivity | ].
    intros Hk. apply favorite_key_inj in Hk. congruence.
Qed.

(** X14. Once both slots have been assigned non-empty ids, in the order
    slot 1 then slot 2 and from any dict configuration, a click is a call of
    [set_default_device]: on the second id when the current default is the
    first, on the first id otherwise. *)
Theorem assign_both_then_toggle (m : machine) (d : gmap string value)
    (a b : string) :
  _config (self m) = VDict d →
  a ≠ "" → b ≠ "" →
  let m2 := snd (set_favorite 2 (VStr b) (snd (set_favorite 1 (VStr a) m))) in
  toggle_favorites m2 =
    set_default_device
      (VStr (if decide (render_default (os m) 0 = Some a) then b else a)) m2.
Proof.
  intros Hc Ha Hb.
  destruct (set_favorite_dict 1 (VStr a) d m Hc) as [f1 E1].
  rewrite E1; cbn [snd].
  destruct (set_favorite_dict 2 (VStr b) (<[favorite_key 1 := VStr a]> d)
              (mkMachine
                 (mkAudioSwitcher (policy_client (self m)) (_devices (self m))
                    (VDict (<[favorite_key 1 := VStr a]> d)))
                 (write_file f1 (os m))) eq_refl) as [f2 E2].
  rewrite E2; cbn [snd self os _config _devices policy_client]. cbv zeta.
  match goal with |- toggle_favorites ?M = _ => set (m2 := M) end.
  change (render_default (os m) 0) with (render_default (os m2) 0).
  rewrite set_default_device_exact.
  apply (toggle_favorites_set m2
           (<[favorite_key 2 := VStr b]> (<[favorite_key 1 := VStr a]> d))
           a b); try assumption; try reflexivity.
  - rewrite lookup_insert_ne by discriminate. apply lookup_insert_eq.
  - apply lookup_insert_eq.
Qed.

(** X15. A configuration that is not a dict (the file held some other JSON
    value) makes every use of the preferences raise and change nothing: the
    toggle, the labels and the check marks raise [AttributeError], and
    [set_favorite] raises [TypeError] before anything is written. *)
Theorem not_dict_configuration_raises (m : machine) (slot : Z) (X : value)
    (Y : string) :
  (∀ d, _config (self m) ≠ VDict d) →
  toggle_favorites m = (Raise AttributeError, m) ∧
  set_favorite slot X m = (Raise TypeError, m) ∧
  _get_favorite_label slot m = (Raise AttributeError, m) ∧
  _is_favorite slot Y m = (Raise AttributeError, m).
Proof.
  intros Hn. split; [exact (toggle_favorites_not_dict m Hn) | ].
  assert (Hget : ∀ k, dict_get (_config (self m)) k m = (Raise AttributeError, m)).
  { intros k. destruct (_config (self m)) as [ | | | | | d]; try reflexivity.
    destruct (Hn d). reflexivity. }
  assert (Hset : ∀ k, dict_setitem (_config (self m)) k X m = (Raise TypeError, m)).
  { intros k. destruct (_config (self m)) as [ | | | | | d]; try reflexivity.
    destruct (Hn d). reflexivity. }
  split; [ | split].
  - unfold set_favorite.
    rewrite (bind_ok get_self _ m (self m) m eq_refl).
    apply bind_raise, Hset.
  - unfold _get_favorite_label.
    rewrite (bind_ok get_self _ m (self m) m eq_refl).
    apply bind_raise, Hget.
  - unfold _is_favorite.
    rewrite (bind_ok get_self _ m (self m) m eq_refl).
    apply bind_raise, Hget.
Qed.
End favorite_checks.

(** ** Preference store: what a save can leave on disk, and start-up *)

Section store_outcomes.
Context `{JsonLib}.

Lemma write_text_outcomes s m :
  ∃ r f,
    write_text s m = (r, mkMachine (self m) (write_file f (os m))) ∧
    (f = Content s ∨
     ∃ k, disk_quota (os m) = Some k ∧ (k < String.length s)%nat ∧
          f = Content (substring 0 k s)).
Proof.
  destruct m as [a w]. unfold write_text.
  rewrite (bind_ok get_os _ (mkMachine a w) w (mkMachine a w) eq_refl).
  destruct (disk_quota w) as [k|] eqn:Hq.
  - destruct (k <? String.length s)%nat eqn:Hk.
    + exists (Raise OSError), (Content (substring 0 k s)).
      split; [reflexivity | right]. exists k.
      apply Nat.ltb_lt in Hk. auto.
    + exists (Ok tt), (Content s). split; [reflexivity | auto].
  - exists (Ok tt), (Content s). split; [reflexivity | auto].
Qed.

Lemma open_write_refused m :
  config_file (os m) = Denied ∨ fs_writable (os m) = false →
  open_write m = (Raise OSError, m).
Proof.
  destruct m as [a w]; cbn. intros Hr.
  unfold open_write, bind, get_os, set_config_file, put_os, raise; cbn.
  destruct Hr as [-> | Hw]; [reflexivity | ].
  rewrite Hw. destruct (config_file w); reflexivity.
Qed.

(** X16. [save_config] never raises and changes nothing but the file.
    Afterwards the file is as before (it could not be opened for writing),
    or holds the whole text of the value, or, when the disk gave out while
    writing, only a strict prefix of it: the file is truncated on opening,
    so a failed write does not keep the previous preferences. *)
Theorem save_config_outcomes (p : value) (m : machine) :
  ∃ f,
    save_config p m = (Ok tt, mkMachine (self m) (write_file f (os m))) ∧
    (f = config_file (os m) ∨
     f = Content (json_dumps p) ∨
     ∃ k, disk_quota (os m) = Some k ∧
          (k < String.length (json_dumps p))%nat ∧
          f = Content (substring 0 k (json_dumps p))) ∧
    (config_file (os m) = Denied ∨ fs_writable (os m) = false →
       f = config_file (os m)).
Proof.
  unfold save_config, save_config_try.
  destruct (open_write_run m) as [Ho | Ho].
  - destruct (write_text_outcomes (json_dumps p)
                (mkMachine (self m) (write_file (Content "") (os m))))
      as (r & f & E & Hf).
    cbn [self os] in E. rewrite write_file_twice in E.
    exists f. split; [ | split].
    + unfold try_except. rewrite (bind_ok _ _ _ _ _ Ho), E.
      destruct r as [[]|e]; reflexivity.
    + destruct Hf as [-> | Hk]; auto.
    + intros Hr. rewrite (open_write_refused m Hr) in Ho. discriminate.
  - exists (config_file (os m)). split; [ | auto].
    unfold try_except. rewrite (bind_raise _ _ _ _ _ Ho).
    rewrite write_file_same, machine_eta. reflexivity.
Qed.

Lemma enumerated_by_report m :
  enumerated m =
    match all_devices (os m) with
    | Ok devs => fold_left refresh_step devs []
    | Raise _ => []
    end.
Proof. unfold enumerated. rewrite refresh_devices_run. reflexivity. Qed.

(** X17. Creating the [AudioSwitcher] never raises and leaves the system as
    it is: the object starts without a policy client, with what
    [load_config] returns as preferences and with the enumeration result as
    device list.  On a first run (no preferences file) a click then does
    nothing. *)
Theorem AudioSwitcher_init_state (m : machine) :
  ∃ cfg,
    load_config m = (Ok cfg, m) ∧
    AudioSwitcher_init m =
      (Ok tt, mkMachine (mkAudioSwitcher None (enumerated m) cfg) (os m)) ∧
    (config_file (os m) = Missing →
       toggle_favorites (snd (AudioSwitcher_init m))
       = (Ok tt, snd (AudioSwitcher_init m))).
Proof.
  pose proof (load_config_run m) as Hl.
  set (cfg := match config_file (os m) with
              | Content s => default default_config (json_loads s)
              | _ => default_config
              end) in Hl.
  assert (Hinit : AudioSwitcher_init m =
            (Ok tt, mkMachine (mkAudioSwitcher None (enumerated m) cfg) (os m))).
  { unfold AudioSwitcher_init.
    rewrite (bind_ok load_config _ m cfg m Hl).
    step_ok. rewrite refresh_devices_run; cbn [self os policy_client _config].
    rewrite enumerated_by_report. reflexivity. }
  exists cfg. split; [exact Hl | split; [exact Hinit | ]].
  intros Hf. rewrite Hinit; cbn [snd].
  apply (toggle_favorites_falsy _
           (<["favorite1" := VNone]> (<["favorite2" := VNone]> ∅))).
  - cbn. subst cfg. rewrite Hf. reflexivity.
  - left. reflexivity.
Qed.
End store_outcomes.

(** ** Tray menu *)

Section menu_facts.
Context `{JsonLib}.

Lemma create_menu_run m :
  create_menu m =
    (Ok ([submenu (_get_favorite_label 1)
            (map (fun device =>
               item (ret (name device))
                 (_make_favorite_callback 1 (id device))
                 (Some (_is_favorite 1 (id device))))
               (_devices (self m)));
          submenu (_get_favorite_label 2)
            (map (fun device =>
               item (ret (name device))
                 (_make_favorite_callback 2 (id device))
                 (Some (_is_favorite 2 (id device))))
               (_devices (self m)));
          SEPARATOR] ++
         map (fun device =>
           item (ret (name device))
             (_make_select_callback (id device))
             (Some (_is_default (id device))))
           (_devices (self m)) ++
         [SEPARATOR;
          item (ret "Refresh") _on_refresh None;
          item (ret "Exit") icon_stop None])%list, m).
Proof. reflexivity. Qed.

Lemma lookup_past_three {A} (a b c : A) (l : list A) (j : nat) :
  (a :: b :: c :: l) !! (3 + j)%nat = l !! j.
Proof. reflexivity. Qed.

Lemma device_entry_lookup m entries j dev :
  create_menu m = (Ok entries, m) →
  _devices (self m) !! j = Some dev →
  entries !! (3 + j)%nat =
    Some (item (ret (name dev)) (_make_select_callback (id dev))
            (Some (_is_default (id dev)))).
Proof.
  rewrite create_menu_run. intros [= <-] Hj.
  rewrite lookup_past_three.
  rewrite lookup_app_l by (rewrite length_map; eapply lookup_lt_Some; eauto).
  rewrite list_lookup_fmap, Hj. reflexivity.
Qed.

Lemma is_default_after_select m X Y :
  policy_in_use m ≠ None → endpoint_accepts (os m) X 0 = true →
  _is_default Y (after_set_default (VStr X) m)
  = (Ok (bool_decide (X = Y)), after_set_default (VStr X) m).
Proof.
  intros Hp Ha. rewrite is_default_run, after_set_default_default.
  destruct (policy_in_use m); [ | congruence].
  rewrite Ha; cbn [Nat.ltb Nat.leb andb].
  destruct (decide (X = Y)) as [-> | Hne].
  - rewrite !bool_decide_eq_true_2; reflexivity.
  - rewrite !bool_decide_eq_false_2; [reflexivity | assumption | congruence].
Qed.

(** X18. In the menu built by [create_menu], the entry at position [3 + i]
    belongs to the [i]-th device of the list: it shows that device's name,
    and picking it, with an interface at hand and a system that accepts the
    id for role 0, returns normally and leaves the check marks of the
    device entries on exactly for the devices with that id. *)
Theorem pick_device_entry (m : machine) (entries : list menu_item)
    (i : nat) (dev : device) :
  create_menu m = (Ok entries, m) →
  _devices (self m) !! i = Some dev →
  policy_in_use m ≠ None →
  endpoint_accepts (os m) (id dev) 0 = true →
  ∃ text action check,
    entries !! (3 + i)%nat = Some (item text action (Some check)) ∧
    text m = (Ok (name dev), m) ∧
    fst (action m) = Ok tt ∧
    ∀ j dev',
      _devices (self m) !! j = Some dev' →
      ∃ text' action' check',
        entries !! (3 + j)%nat = Some (item text' action' (Some check')) ∧
        check' (snd (action m))
        = (Ok (bool_decide (id dev = id dev')), snd (action m)).
Proof.
  intros Hm Hi Hp Ha.
  exists (ret (name dev)), (_make_select_callback (id dev)),
    (_is_default (id dev)).
  split; [exact (device_entry_lookup m entries i dev Hm Hi) | ].
  split; [reflexivity | ].
  assert (Hrun : _make_select_callback (id dev) m
                 = (Ok tt, after_set_default (VStr (id dev)) m))
    by apply set_default_device_exact.
  rewrite !Hrun.
  split; [reflexivity | ].
  intros j dev' Hj.
  exists (ret (name dev')), (_make_select_callback (id dev')),
    (_is_default (id dev')).
  split; [exact (device_entry_lookup m entries j dev' Hm Hj) | ].
  cbn [snd]. apply is_default_after_select; assumption.
Qed.
End menu_facts.

Section menu_favorites.
Context `{JsonLib}.

Lemma favorite_submenu_lookup m entries slot :
  create_menu m = (Ok entries, m) →
  slot = 1%Z ∨ slot = 2%Z →
  entries !! Z.to_nat (slot - 1) =
    Some (submenu (_get_favorite_label slot)
            (map (fun device =>
               item (ret (name device))
                 (_make_favorite_callback slot (id device))
                 (Some (_is_favorite slot (id device))))
               (_devices (self m)))).
Proof.
  rewrite create_menu_run. intros [= <-] [-> | ->]; reflexivity.
Qed.

Lemma is_favorite_after_assign m d slot X Y f :
  _is_favorite slot Y
    (mkMachine
       (mkAudioSwitcher (policy_client (self m)) (_devices (self m))
          (VDict (<[favorite_key slot := VStr X]> d)))
       (write_file f (os m)))
  = (Ok (bool_decide (X = Y)),
     mkMachine
       (mkAudioSwitcher (policy_client (self m)) (_devices (self m))
          (VDict (<[favorite_key slot := VStr X]> d)))
       (write_file f (os m))).
Proof.
  rewrite (is_favorite_run slot Y (<[favorite_key slot := VStr X]> d))
    by reflexivity.
  rewrite lookup_insert_eq.
  change (default VNone (Some (VStr X))) with (VStr X). cbn [py_eq_id].
  destruct (String.eqb_spec Y X) as [-> | Hne].
  - rewrite bool_decide_eq_true_2; reflexivity.
  - rewrite bool_decide_eq_false_2; [reflexivity | congruence].
Qed.

(** X19. In the menu built by [create_menu] on a dict configuration, the
    submenu of favorite slot 1 or 2 has one entry per device, in the order
    of the list.  Picking its [i]-th entry returns normally; afterwards the
    check marks of that submenu are on exactly for the devices with the
    picked id, and the slot's label ends in the name found for that id,
    which is the picked device's own name when the ids of the list are
    pairwise distinct. *)
Theorem pick_favorite_entry (m : machine) (entries : list menu_item)
    (d : gmap string value) (slot : Z) (i : nat) (dev : device) :
  create_menu m = (Ok entries, m) →
  _config (self m) = VDict d →
  slot = 1%Z ∨ slot = 2%Z →
  _devices (self m) !! i = Some dev →
  ∃ sub text action check,
    entries !! Z.to_nat (slot - 1)
      = Some (submenu (_get_favorite_label slot) sub) ∧
    List.length sub = List.length (_devices (self m)) ∧
    sub !! i = Some (item text action (Some check)) ∧
    fst (action m) = Ok tt ∧
    (∀ j dev',
       _devices (self m) !! j = Some dev' →
       ∃ text' action' check',
         sub !! j = Some (item text' action' (Some check')) ∧
         check' (snd (action m))
         = (Ok (bool_decide (id dev = id dev')), snd (action m))) ∧
    ∃ n,
      find_name (_devices (self m)) (id dev) = Some n ∧
      _get_favorite_label slot (snd (action m))
      = (Ok ("즐찾 [" +:+ pretty slot +:+ "] " +:+ str_or (Some n) "(Not set)"),
         snd (action m)) ∧
      (NoDup (map id (_devices (self m))) → n = name dev).
Proof.
  intros Hm Hc Hslot Hi.
  destruct (set_favorite_dict slot (VStr (id dev)) d m Hc) as [f E].
  assert (Hrun : _make_favorite_callback slot (id dev) m
                 = (Ok tt,
                    mkMachine
                      (mkAudioSwitcher (policy_client (self m))
                         (_devices (self m))
                         (VDict (<[favorite_key slot := VStr (id dev)]> d)))
                      (write_file f (os m)))) by exact E.
  eexists _, (ret (name dev)), (_make_favorite_callback slot (id dev)),
    (_is_favorite slot (id dev)).
  split; [exact (favorite_submenu_lookup m entries slot Hm Hslot) | ].
  split; [apply length_map | ].
  split; [rewrite list_lookup_fmap, Hi; reflexivity | ].
  rewrite !Hrun. split; [reflexivity | ]. cbn [snd]. split.
  - intros j dev' Hj.
    exists (ret (name dev')), (_make_favorite_callback slot (id dev')),
      (_is_favorite slot (id dev')).
    split; [rewrite list_lookup_fmap, Hj; reflexivity | ].
    apply is_favorite_after_assign.
  - assert (He : dev ∈ _devices (self m))
      by (apply list_elem_of_lookup; eauto).
    destruct (find_name_member _ dev He) as (e' & _ & _ & Hf).
    exists (name e'). split; [exact Hf | split].
    + erewrite favorite_label_run by reflexivity.
      cbn [self _devices]. rewrite lookup_insert_eq.
      change (default VNone (Some (VStr (id dev)))) with (VStr (id dev)).
      rewrite find_name_by_str, Hf. reflexivity.
    + intros Hnd. pose proof (find_name_nodup _ dev Hnd He). congruence.
Qed.

(** Any callback of the tray menu is one of five kinds. *)
Lemma tray_menu_callbacks m menu c :
  tray_menu m = (Ok menu, m) →
  In c (flat_map item_callbacks menu) →
  c = toggle_favorites ∨
  (∃ slot dev, (slot = 1%Z ∨ slot = 2%Z) ∧ In dev (_devices (self m)) ∧
               c = set_favorite slot (VStr (id dev))) ∨
  (∃ dev, In dev (_devices (self m)) ∧ c = set_default_device (VStr (id dev))) ∨
  c = _on_refresh ∨ c = icon_stop.
Proof.
  unfold tray_menu. rewrite (bind_ok create_menu _ m _ m (create_menu_run m)).
  intros [= <-] Hall.
  repeat (cbn [In flat_map item_callbacks app] in Hall;
          rewrite ?flat_map_app, ?in_app_iff in Hall).
  revert Hall.
  assert (Hfav : ∀ slot,
    In c (flat_map item_callbacks
            (map (fun device =>
               item (ret (name device))
                 (_make_favorite_callback slot (id device))
                 (Some (_is_favorite slot (id device))))
               (_devices (self m)))) →
    ∃ dev, In dev (_devices (self m)) ∧ c = set_favorite slot (VStr (id dev))).
  { intros slot Hin. apply in_flat_map in Hin as (it & Hit & Hc).
    apply in_map_iff in Hit as (dev & <- & Hdev).
    destruct Hc as [<- | []]. eauto. }
  intros [<- | [Hin | [Hin | [Hin | [<- | [<- | []]]]]]]; auto.
  - apply Hfav in Hin as (dev & Hdev & ->). right. left. exists 1%Z, dev. auto.
  - apply Hfav in Hin as (dev & Hdev & ->). right. left. exists 2%Z, dev. auto.
  - apply in_flat_map in Hin as (it & Hit & Hc).
    apply in_map_iff in Hit as (dev & <- & Hdev).
    destruct Hc as [<- | []]. right. right. left. eauto.
Qed.

(** A slot is assigned when it holds a non-empty id. *)
Lemma assigned_after_insert (d : gmap string value) k slot i :
  (∃ x, d !! favorite_key k = Some (VStr x) ∧ x ≠ "") →
  i ≠ "" →
  ∃ x, <[favorite_key slot := VStr i]> d !! favorite_key k = Some (VStr x) ∧
       x ≠ "".
Proof.
  intros (x & Hx & Hne) Hi.
  destruct (decide (favorite_key slot = favorite_key k)) as [E | N].
  - rewrite E, lookup_insert_eq. eauto.
  - rewrite lookup_insert_ne by exact N. eauto.
Qed.

(** X20. No sequence of menu actions clears a favorite.  For a tray menu
    built when every listed device has a non-empty id, and a dict
    configuration in which a slot holds a non-empty id, any sequence of the
    menu's callbacks (the click, picking a device, assigning a favorite,
    Refresh, Exit), in any order and number, runs without raising and
    leaves a dict configuration in which that slot still holds a non-empty
    id. *)
Theorem favorites_are_never_cleared (m0 : machine) (menu : list menu_item)
    (cs : list (M unit)) (k : Z) (m : machine) (d : gmap string value) :
  tray_menu m0 = (Ok menu, m0) →
  Forall (fun e => id e ≠ "") (_devices (self m0)) →
  Forall (fun c => In c (flat_map item_callbacks menu)) cs →
  _config (self m) = VDict d →
  (∃ x, d !! favorite_key k = Some (VStr x) ∧ x ≠ "") →
  ∃ m' d',
    for_each cs (fun c => c) m = (Ok tt, m') ∧
    _config (self m') = VDict d' ∧
    ∃ x, d' !! favorite_key k = Some (VStr x) ∧ x ≠ "".
Proof.
  intros Hmenu Hids Hcs. revert m d.
  induction Hcs as [|c cs Hc _ IH]; intros m d Hcfg Hk.
  - exists m, d. auto.
  - cbn [for_each].
    assert (Hstep : ∃ m1 d1,
      c m = (Ok tt, m1) ∧ _config (self m1) = VDict d1 ∧
      ∃ x, d1 !! favorite_key k = Some (VStr x) ∧ x ≠ "").
    { destruct (tray_menu_callbacks m0 menu c Hmenu Hc)
        as [-> | [(slot & dev & _ & Hdev & ->) | [(dev & _ & ->) | [-> | ->]]]].
      - destruct (toggle_favorites_keeps_state m d Hcfg) as (m1 & E & C).
        exists m1, d. auto.
      - destruct (set_favorite_dict slot (VStr (id dev)) d m Hcfg) as [f E].
        eexists _, _. split; [exact E | split; [reflexivity | ]].
        apply assigned_after_insert; [exact Hk | ].
        rewrite Forall_forall in Hids. apply Hids, list_elem_of_In, Hdev.
      - rewrite set_default_device_exact. eexists _, d.
        split; [reflexivity | auto].
      - unfold _on_refresh, icon_update_menu.
        rewrite (bind_ok _ _ _ _ _ (refresh_devices_run m)).
        eexists _, d. split; [reflexivity | auto].
      - exists m, d. auto. }
    destruct Hstep as (m1 & d1 & E1 & C1 & K1).
    destruct (IH m1 d1 C1 K1) as (m' & d' & E' & C' & K').
    exists m', d'. split; [ | auto].
    rewrite (bind_ok _ _ _ _ _ E1). exact E'.
Qed.
End menu_favorites.

(** ** [kill_existing_instance] *)

Lemma kill_listed_run lines : ∀ h,
  ∃ r,
    kill_listed lines h =
      (r, mkHost (current_pid h) (wmic_pythonw h) (wmic_exe h)
            (taskkill_raises h)
            (taskkilled h ++
               until_raise (taskkill_raises h)
                 (others (current_pid h) (pids_on lines)))%list).
Proof.
  induction lines as [|line lines IH]; intros h.
  - exists (Ok tt). cbn. rewrite app_nil_r. destruct h; reflexivity.
  - cbn [kill_listed]. unfold pids_on in *. cbn [map List.filter].
    destruct (isdigit (strip line)) eqn:Hd; [ | apply IH].
    cbn [map others List.filter].
    destruct (N.eqb (int_of_digits (strip line)) (current_pid h)) eqn:Hp;
      cbn [negb]; [apply IH | ].
    cbn [until_raise]. unfold taskkill.
    destruct (taskkill_raises h (int_of_digits (strip line))) eqn:Hr.
    + exists (Raise OSError). reflexivity.
    + destruct (IH (mkHost (current_pid h) (wmic_pythonw h) (wmic_exe h)
                      (taskkill_raises h)
                      (taskkilled h ++ [int_of_digits (strip line)])%list))
        as [r E].
      exists r. rewrite E. cbn. rewrite <- app_assoc. reflexivity.
Qed.

Lemma kill_block_run query h :
  kill_block query h =
    (Ok tt,
     mkHost (current_pid h) (wmic_pythonw h) (wmic_exe h) (taskkill_raises h)
       (taskkilled h ++
          until_raise (taskkill_raises h)
            (others (current_pid h) (listed_pids query)))%list).
Proof.
  unfold kill_block, kill_block_try, listed_pids.
  destruct query as [stdout | e].
  - destruct (kill_listed_run (split_lines (strip stdout)) h) as [r E].
    rewrite E. destruct r as [[]|e]; reflexivity.
  - cbn. rewrite app_nil_r. destruct h; reflexivity.
Qed.

Lemma kill_existing_instance_run h :
  kill_existing_instance h =
    (Ok tt,
     mkHost (current_pid h) (wmic_pythonw h) (wmic_exe h) (taskkill_raises h)
       (taskkilled h ++
          until_raise (taskkill_raises h)
            (others (current_pid h) (listed_pids (wmic_pythonw h))) ++
          until_raise (taskkill_raises h)
            (others (current_pid h) (listed_pids (wmic_exe h))))%list).
Proof.
  unfold kill_existing_instance. rewrite kill_block_run.
  rewrite kill_block_run. cbn. rewrite <- app_assoc. reflexivity.
Qed.

Lemma until_raise_sub raises pids p :
  In p (until_raise raises pids) → In p pids.
Proof.
  induction pids as [|q pids IH]; cbn; [tauto | ].
  destruct (raises q); cbn; [tauto | ]. intros [-> | Hp]; auto.
Qed.

Lemma until_raise_all raises pids :
  (∀ p, raises p = false) → until_raise raises pids = pids.
Proof.
  intros Hr. induction pids as [|q pids IH]; cbn; [reflexivity | ].
  rewrite Hr, IH. reflexivity.
Qed.

Lemma others_spec own pids p :
  In p (others own pids) ↔ In p pids ∧ p ≠ own.
Proof.
  unfold others. rewrite filter_In, negb_true_iff, N.eqb_neq. tauto.
Qed.

(** X21. [kill_existing_instance] never raises, whatever the two queries and
    [taskkill] do, and it never runs [taskkill] for the process's own pid.
    When the two query outputs are ASCII text, every pid it is run for is
    one that stands alone, in decimal digits, on a line of one of the two
    outputs. *)
Theorem kill_existing_instance_spares_itself (h : host) :
  ∃ h' killed,
    kill_existing_instance h = (Ok tt, h') ∧
    current_pid h' = current_pid h ∧
    taskkilled h' = (taskkilled h ++ killed)%list ∧
    (∀ p, In p killed → p ≠ current_pid h) ∧
    (ascii_output (wmic_pythonw h) = true →
     ascii_output (wmic_exe h) = true →
     ∀ p, In p killed →
          In p (listed_pids (wmic_pythonw h)) ∨
          In p (listed_pids (wmic_exe h))).
Proof.
  eexists _, _. split; [apply kill_existing_instance_run | ].
  split; [reflexivity | split; [reflexivity | split]].
  - intros p Hp. apply in_app_or in Hp as [Hp | Hp];
      apply until_raise_sub, others_spec in Hp as [Hp Hne]; exact Hne.
  - intros _ _ p Hp. apply in_app_or in Hp as [Hp | Hp];
      apply until_raise_sub, others_spec in Hp as [Hp Hne]; auto.
Qed.

(** X22. What [kill_existing_instance] runs [taskkill] for, exactly, when
    the two query outputs are ASCII text without over-long lines: along
    the pids of the first query other than its own, in order, up to and
    including the first one for which [taskkill] raises, then the same
    along the pids of the second query; a query that raises contributes
    nothing, and a failure in the first block does not stop the second.
    When [taskkill] never raises these are all the listed pids other than
    its own. *)
Theorem kill_existing_instance_kills (h : host) :
  plain_output (wmic_pythonw h) = true →
  plain_output (wmic_exe h) = true →
  taskkilled (snd (kill_existing_instance h)) =
    (taskkilled h ++
       until_raise (taskkill_raises h)
         (others (current_pid h) (listed_pids (wmic_pythonw h))) ++
       until_raise (taskkill_raises h)
         (others (current_pid h) (listed_pids (wmic_exe h))))%list ∧
  ((∀ p, taskkill_raises h p = false) →
     taskkilled (snd (kill_existing_instance h)) =
       (taskkilled h ++
          others (current_pid h) (listed_pids (wmic_pythonw h)) ++
          others (current_pid h) (listed_pids (wmic_exe h)))%list).
Proof.
  intros _ _.
  rewrite kill_existing_instance_run; cbn [snd taskkilled].
  split; [reflexivity | ].
  intros Hr. rewrite !(until_raise_all _ _ Hr). reflexivity.
Qed.

(** *** Reading a process table *)












Lemma rstrip_nonempty_head c s :
  is_space c = false → rstrip (String c s) ≠ "".
Proof.
  intros Hc. cbn [rstrip]. destruct (rstrip s); [rewrite Hc | ]; discriminate.
Qed.








(** ** The blacklist test as a substring test *)

Lemma prefix_app p : ∀ s,
  String.prefix p s = true ↔ ∃ b, s = p +:+ b.
Proof.
  induction p as [|c p IH]; intros s.
  - split; [intros _; exists s; reflexivity | destruct s; reflexivity].
  - destruct s as [|x s]; cbn [String.prefix].
    + split; [discriminate | intros (b & Hb); discriminate].
    + destruct (ascii_dec c x) as [-> | Hne].
      * rewrite IH. split; intros (b & Hb); exists b.
        -- rewrite Hb. reflexivity.
        -- change (String x p +:+ b) with (String x (p +:+ b)) in Hb.
           congruence.
      * split; [discriminate | intros (b & Hb)].
        change (String c p +:+ b) with (String c (p +:+ b)) in Hb.
        congruence.
Qed.

Lemma contains_app p s :
  contains p s = true ↔ ∃ a b, s = a +:+ p +:+ b.
Proof.
  induction s as [|x s IH]; cbn [contains].
  - rewrite orb_false_r, prefix_app. split.
    + intros (b & Hb). exists "", b. exact Hb.
    + intros (a & b & Hab). destruct a as [|y a]; [exists b; exact Hab | ].
      discriminate.
  - rewrite orb_true_iff, prefix_app, IH. split.
    + intros [(b & Hb) | (a & b & Hab)].
      * exists "", b. exact Hb.
      * exists (String x a), b. rewrite Hab. reflexivity.
    + intros (a & b & Hab). destruct a as [|y a].
      * left. exists b. exact Hab.
      * right. exists a, b.
        change (String y a +:+ p +:+ b) with (String y (a +:+ p +:+ b)) in Hab.
        congruence.
Qed.

(** X24. On names that are ASCII text, the name test of the enumerator is a
    substring test on lowered text: a name is skipped exactly when its
    lowered form can be cut into three parts whose middle one is the
    lowered form of one of the patterns; so it sees no difference between
    two such names that lower to the same text. *)
Theorem name_skipped_substring (nm : string) :
  ascii_only nm = true →
  (name_skipped nm = true ↔
   ∃ pattern a b,
     In pattern skip_patterns ∧ lower nm = a +:+ lower pattern +:+ b) ∧
  (∀ nm', ascii_only nm' = true →
          lower nm' = lower nm → name_skipped nm' = name_skipped nm).
Proof.
  intros _. split.
  - unfold name_skipped. rewrite existsb_exists. split.
    + intros (p & Hp & Hc). apply contains_app in Hc as (a & b & Hab). eauto.
    + intros (p & a & b & Hp & Hab). exists p. split; [exact Hp | ].
      apply contains_app. eauto.
  - intros nm' _ Hl. unfold name_skipped. rewrite Hl. reflexivity.
Qed.

(** ** Assigning a favorite when the file cannot be written *)

Section failed_save.
Context `{JsonLib}.

Lemma save_config_refused p m :
  config_file (os m) = Denied ∨ fs_writable (os m) = false →
  save_config p m = (Ok tt, m).
Proof.
  intros Hr. unfold save_config, save_config_try.
  rewrite (try_except_raise _ _ m OSError m); [reflexivity | ].
  apply bind_raise, open_write_refused, Hr.
Qed.

(** X25. When the preferences file cannot be opened for writing,
    [set_favorite] on a dict configuration still returns normally and the
    assignment holds in memory, while the system, the file included, is
    exactly as before: what [load_config] would return has not changed. *)
Theorem set_favorite_survives_failed_save (slot : Z) (X : value)
    (d : gmap string value) (m : machine) :
  _config (self m) = VDict d →
  config_file (os m) = Denied ∨ fs_writable (os m) = false →
  ∃ m',
    set_favorite slot X m = (Ok tt, m') ∧
    os m' = os m ∧
    _config (self m') = VDict (<[favorite_key slot := X]> d) ∧
    fst (load_config m') = fst (load_config m).
Proof.
  intros Hc Hr. rewrite (set_favorite_run slot X d m Hc).
  rewrite save_config_refused by exact Hr.
  eexists. split; [reflexivity | ]. cbn.
  split; [reflexivity | split; [reflexivity | ]].
  rewrite !load_config_run. reflexivity.
Qed.
End failed_save.

(** ** The further properties at work on the sample machines *)

Example kill_sample_host :
  taskkilled (snd (kill_existing_instance sample_host)) = [1200; 77; 9000]%N.
Proof. vm_compute. reflexivity. Qed.

Example label_of_assigned_slot :
  fst (_get_favorite_label 1
         (listed_machine (favorites (VStr "B") VNone) None))
  = Ok "즐찾 [1] Headphones".
Proof. vm_compute. reflexivity. Qed.

Lemma set_default_device_moves_accepted_roles_witness :
  render_default
    (os (snd (set_default_device (VStr "A")
                (sample_machine default_config
                   (sample_world [] (Some "C")
                      (fun _ role => negb (Nat.eqb role 0))))))) 1%nat
  = Some "A".
Proof.
  rewrite set_default_device_moves_accepted_roles; [reflexivity | discriminate].
Defined.

Lemma toggle_favorites_keeps_preferences_witness :
  ∃ s w,
    toggle_favorites
      (sample_machine (favorites (VStr "A") (VStr "B"))
         (sample_world [] (Some "A") (fun _ _ => true)))
    = (Ok tt, mkMachine s w) ∧
    _config s = favorites (VStr "A") (VStr "B").
Proof.
  destruct (toggle_favorites_keeps_preferences
              (sample_machine (favorites (VStr "A") (VStr "B"))
                 (sample_world [] (Some "A") (fun _ _ => true)))
              (<["favorite1" := VStr "A"]> (<["favorite2" := VStr "B"]> ∅))
              eq_refl) as (s & w & E & C & _).
  exists s, w. split; [exact E | exact C].
Defined.

Lemma toggle_favorites_alternates_witness :
  render_default
    (os (snd (toggle_favorites (snd (toggle_favorites
       (sample_machine (favorites (VStr "A") (VStr "B"))
          (sample_world [] (Some "B") (fun _ _ => true)))))))) 0%nat
  = Some "B".
Proof.
  refine (proj2 (toggle_favorites_alternates
            (sample_machine (favorites (VStr "A") (VStr "B"))
               (sample_world [] (Some "B") (fun _ _ => true)))
            (<["favorite1" := VStr "A"]> (<["favorite2" := VStr "B"]> ∅))
            "A" "B" eq_refl _ _ _ _ _ eq_refl eq_refl) _).
  - vm_compute. reflexivity.
  - discriminate.
  - vm_compute. reflexivity.
  - discriminate.
  - discriminate.
  - right. reflexivity.
Defined.

Lemma toggle_favorites_stuck_on_refused_first_witness :
  render_default
    (os (Nat.iter 3 (fun m => snd (toggle_favorites m))
           (sample_machine (favorites (VStr "A") (VStr "B"))
              (sample_world [] (Some "C")
                 (fun s _ => negb (String.eqb s "A")))))) 0%nat
  = Some "C".
Proof.
  rewrite (toggle_favorites_stuck_on_refused_first _
             (<["favorite1" := VStr "A"]> (<["favorite2" := VStr "B"]> ∅))
             "A" "B" 3 0).
  - reflexivity.
  - reflexivity.
  - vm_compute. reflexivity.
  - discriminate.
  - vm_compute. reflexivity.
  - discriminate.
  - discriminate.
  - intros r. reflexivity.
Defined.

Lemma enumerated_ids_in_report_order_witness :
  map Some (map id
    (enumerated
       (sample_machine default_config
          (sample_world [speakers; usb_microphone; stereo_mix; headset] None
             (fun _ _ => true)))))
  = [dev_id speakers; dev_id headset].
Proof.
  destruct (enumerated_ids_in_report_order
              (sample_machine default_config
                 (sample_world [speakers; usb_microphone; stereo_mix; headset]
                    None (fun _ _ => true)))
              [speakers; usb_microphone; stereo_mix; headset] eq_refl eq_refl)
    as [Hids _].
  rewrite Hids. vm_compute. reflexivity.
Defined.

Lemma kill_existing_instance_kills_witness :
  taskkilled (snd (kill_existing_instance sample_host)) = [1200; 77; 9000]%N.
Proof.
  assert (Hfirst : plain_output (wmic_pythonw sample_host) = true)
    by (vm_compute; reflexivity).
  assert (Hsecond : plain_output (wmic_exe sample_host) = true)
    by (vm_compute; reflexivity).
  destruct (kill_existing_instance_kills sample_host Hfirst Hsecond)
    as [Hkills _].
  rewrite Hkills. vm_compute. reflexivity.
Defined.

Lemma name_skipped_substring_witness :
  name_skipped "USB MICROPHONE" = name_skipped "usb microphone".
Proof.
  destruct (name_skipped_substring "usb microphone" eq_refl) as [_ Hsame].
  apply Hsame; reflexivity.
Defined.

Lemma enumerated_names_resolve_witness :
  ∃ n,
    get_device_name "{0.0.0.00000000}.{anon}"
      (snd (_refresh_devices
              (sample_machine default_config
                 (sample_world [speakers; nameless] None (fun _ _ => true)))))
    = (Ok (Some n),
       snd (_refresh_devices
              (sample_machine default_config
                 (sample_world [speakers; nameless] None (fun _ _ => true)))))
    ∧ n ≠ "".
Proof.
  destruct (enumerated_names_resolve
              (sample_machine default_config
                 (sample_world [speakers; nameless] None (fun _ _ => true)))
              1%nat (mkDevice "{0.0.0.00000000}.{anon}" "Device 2"))
    as (n & E & Hn & _).
  - vm_compute. reflexivity.
  - exists n. split; [exact E | exact Hn].
Defined.

Lemma favorite_label_shows_witness :
  _get_favorite_label 2 (listed_machine (favorites (VStr "A") (VStr "gone")) None)
  = (Ok "즐찾 [2] (Not set)",
     listed_machine (favorites (VStr "A") (VStr "gone")) None).
Proof.
  destruct (favorite_label_shows
              (listed_machine (favorites (VStr "A") (VStr "gone")) None)
              (<["favorite1" := VStr "A"]> (<["favorite2" := VStr "gone"]> ∅))
              2 eq_refl) as (_ & Hgone & _).
  apply (Hgone "gone").
  - vm_compute. reflexivity.
  - repeat constructor; discriminate.
Defined.

Lemma favorite_check_follows_assignment_witness :
  fst (_is_favorite 1 "B"
         (snd (set_favorite 1 (VStr "B")
                 (listed_machine (favorites (VStr "A") VNone) None))))
  = Ok true.
Proof.
  destruct (favorite_check_follows_assignment
              (listed_machine (favorites (VStr "A") VNone) None)
              (<["favorite1" := VStr "A"]> (<["favorite2" := VNone]> ∅))
              1 2 "B" "B" eq_refl) as [Hc _].
  rewrite Hc. reflexivity.
Defined.

Lemma set_favorite_last_wins_witness :
  _config (self (snd (set_favorite 1 (VStr "B")
     (snd (set_favorite 1 (VStr "A")
             (listed_machine default_config None))))))
  = _config (self (snd (set_favorite 1 (VStr "B")
                          (listed_machine default_config None)))).
Proof.
  exact (proj1 (set_favorite_last_wins (listed_machine default_config None)
                  (<["favorite1" := VNone]> (<["favorite2" := VNone]> ∅))
                  1 2 (VStr "A") (VStr "B") eq_refl)).
Defined.

Lemma assign_both_then_toggle_witness :
  toggle_favorites
    (snd (set_favorite 2 (VStr "B")
            (snd (set_favorite 1 (VStr "A")
                    (listed_machine default_config (Some "A"))))))
  = set_default_device (VStr "B")
      (snd (set_favorite 2 (VStr "B")
              (snd (set_favorite 1 (VStr "A")
                      (listed_machine default_config (Some "A")))))).
Proof.
  apply (assign_both_then_toggle (listed_machine default_config (Some "A"))
           (<["favorite1" := VNone]> (<["favorite2" := VNone]> ∅)) "A" "B").
  - reflexivity.
  - discriminate.
  - discriminate.
Defined.

Lemma not_dict_configuration_raises_witness :
  toggle_favorites (listed_machine (VList []) None)
  = (Raise AttributeError, listed_machine (VList []) None).
Proof.
  refine (proj1 (not_dict_configuration_raises
                   (listed_machine (VList []) None) 1 VNone "A" _)).
  intros d. discriminate.
Defined.

Lemma pick_device_entry_witness :
  ∃ (entries : list menu_item) text action check,
    create_menu (listed_machine default_config None)
      = (Ok entries, listed_machine default_config None) ∧
    entries !! 4%nat = Some (item text action (Some check)) ∧
    text (listed_machine default_config None)
      = (Ok "Headphones", listed_machine default_config None).
Proof.
  destruct (pick_device_entry (listed_machine default_config None) _ 1%nat
              (mkDevice "B" "Headphones")
              (create_menu_run (listed_machine default_config None)))
    as (text & action & check & Hl & Ht & _).
  - reflexivity.
  - discriminate.
  - reflexivity.
  - eexists _, text, action, check.
    split; [apply create_menu_run | split; [exact Hl | exact Ht]].
Defined.

Lemma pick_favorite_entry_witness :
  ∃ (sub : list menu_item) text action check,
    sub !! 1%nat = Some (item text action (Some check)) ∧
    fst (action (listed_machine default_config None)) = Ok tt ∧
    fst (_get_favorite_label 2
           (snd (action (listed_machine default_config None))))
    = Ok "즐찾 [2] Headphones".
Proof.
  destruct (pick_favorite_entry (listed_machine default_config None) _
              (<["favorite1" := VNone]> (<["favorite2" := VNone]> ∅))
              2 1%nat (mkDevice "B" "Headphones")
              (create_menu_run (listed_machine default_config None)))
    as (sub & text & action & check & _ & _ & Hl & Hok & _ & n & Hf & Hlab & _).
  - reflexivity.
  - right. reflexivity.
  - reflexivity.
  - exists sub, text, action, check.
    split; [exact Hl | split; [exact Hok | ]].
    rewrite Hlab. cbn [fst]. vm_compute in Hf. injection Hf as <-.
    vm_compute. reflexivity.
Defined.

Lemma favorites_are_never_cleared_witness :
  ∃ m' d',
    for_each [set_favorite 2 (VStr "B"); toggle_favorites; _on_refresh]
      (fun c => c)
      (listed_machine (favorites (VStr "A") VNone) None)
    = (Ok tt, m') ∧
    _config (self m') = VDict d' ∧
    ∃ x, d' !! favorite_key 1 = Some (VStr x) ∧ x ≠ "".
Proof.
  apply (favorites_are_never_cleared
           (listed_machine (favorites (VStr "A") VNone) None)
           (fst_menu_of (listed_machine (favorites (VStr "A") VNone) None))
           [set_favorite 2 (VStr "B"); toggle_favorites; _on_refresh] 1
           (listed_machine (favorites (VStr "A") VNone) None)
           (<["favorite1" := VStr "A"]> (<["favorite2" := VNone]> ∅))).
  - reflexivity.
  - repeat constructor; discriminate.
  - repeat constructor; cbn; tauto.
  - reflexivity.
  - exists "A". split; [vm_compute; reflexivity | discriminate].
Defined.

Lemma set_favorite_survives_failed_save_witness :
  ∃ m',
    set_favorite 1 (VStr "A")
      (sample_machine default_config
         (write_file Denied (sample_world [] None (fun _ _ => true))))
    = (Ok tt, m') ∧
    os m' = write_file Denied (sample_world [] None (fun _ _ => true)).
Proof.
  destruct (set_favorite_survives_failed_save 1 (VStr "A")
              (<["favorite1" := VNone]> (<["favorite2" := VNone]> ∅))
              (sample_machine default_config
                 (write_file Denied (sample_world [] None (fun _ _ => true)))))
    as (m' & E & Hos & _).
  - reflexivity.
  - left. reflexivity.
  - exists m'. split; [exact E | exact Hos].
Defined.
